(** * bugsnag-go: the Gin middleware [bugsnaggin.AutoNotify]

    A shallow embedding of [gin/bugsnaggin.go] together with the parts of
    the [bugsnag] package, of Gin and of [net/http] that the middleware
    calls.  Go code that can panic is a function from the program state
    to a result (a normal return or a panic value) and a new state;
    [defer] and [recover] follow the Go specification. *)

From Stdlib Require Import String Ascii List ZArith.
From stdpp Require Import base list strings.
Import ListNotations.
Open Scope string_scope.
Open Scope list_scope.

(** ** Go values *)

(** A pointer is an address in a heap; an address outside the heap is a
    nil or dangling pointer and dereferencing it panics. *)
Abbreviation ptr := nat (only parsing).

(** The value carried by a panic: its dynamic type and its content. *)
Inductive PanicValue : Type :=
| VError (msg : string)          (* an [error], as made by [fmt.Errorf] *)
| VString (s : string)           (* a plain string, [panic("ham")] *)
| VRuntimeError (msg : string).  (* a [runtime.Error] *)

(** [err.Error()], or the string itself. *)
Definition PanicValue_message (v : PanicValue) : string :=
  match v with
  | VError msg => msg
  | VString s => s
  | VRuntimeError msg => msg
  end.

Definition nilDereference : PanicValue :=
  VRuntimeError "invalid memory address or nil pointer dereference".

(** [context.Context]: an immutable chain; every derivation wraps its
    parent and never changes it. *)
Inductive Context : Type :=
| Background
| WithValue (parent : Context) (key value : string)
| WithSession (parent : Context) (session : nat)
| WithRequestData (parent : Context) (r : ptr).

Fixpoint Context_depth (ctx : Context) : nat :=
  match ctx with
  | Background => 0
  | WithValue p _ _ => S (Context_depth p)
  | WithSession p _ => S (Context_depth p)
  | WithRequestData p _ => S (Context_depth p)
  end.

(** ** net/http and Gin objects *)

(** [http.Request], with the fields the reports of the tests read.  The
    context field is unexported in Go and may be nil. *)
Record Request : Type := {
  Method : string;
  URL : string;
  reqCtx : option Context
}.

(** What a handler has written to the client. *)
Record Response : Type := {
  Status : nat;
  Body : string
}.

(** [gin.Context]: the request pointer and the response writer; the
    handler chain itself is the variable [Next] below. *)
Record GinContext : Type := {
  GinRequest : ptr;
  Writer : Response
}.

(** ** The bugsnag package: data *)

(** [bugsnag.severity]; [TestAutoNotify], [TestNotify] and [TestHandler]
    read the names "error", "warning" and "info" in the payload. *)
Inductive severity : Type := SeverityError | SeverityWarning | SeverityInfo.

Definition severity_String (s : severity) : string :=
  match s with
  | SeverityError => "error"
  | SeverityWarning => "warning"
  | SeverityInfo => "info"
  end.

(** [bugsnag.SeverityReason]: the constants that [bugsnag_test.go] and
    [bugsnaggin.go] name.  The specification calls the last one the
    reason "unhandled middleware error". *)
Inductive SeverityReasonT : Type :=
| SeverityReasonHandledError
| SeverityReasonHandledPanic
| SeverityReasonCallbackSpecified
| SeverityReasonUnhandledMiddlewareError.

(** [bugsnag.HandledState], with the four fields of the struct literal in
    [bugsnaggin.AutoNotify]. *)
Record HandledState : Type := {
  SeverityReason : SeverityReasonT;
  OriginalSeverity : severity;
  Unhandled : bool;
  Framework : string
}.

(** [bugsnag.Configuration]: the fields that [generateSampleConfig] and
    [TestConfigureTwice] set.  A Go struct has no unset field: the zero
    value (empty string, nil slice, nil interface) stands for "not
    given".  [AutoCaptureSessions] is an [interface{}] holding nil or a
    bool. *)
Record Configuration : Type := {
  APIKey : string;
  Endpoints_Notify : string;
  ReleaseStage : string;
  AppType : string;
  AppVersion : string;
  Hostname : string;
  ProjectPackages : list string;
  AutoCaptureSessions : option bool
}.

(** [Configuration{}]. *)
Definition Configuration_zero : Configuration :=
  {| APIKey := EmptyString; Endpoints_Notify := EmptyString;
     ReleaseStage := EmptyString; AppType := EmptyString;
     AppVersion := EmptyString; Hostname := EmptyString;
     ProjectPackages := []; AutoCaptureSessions := None |}.

(** An [interface{}] value with its dynamic type: what the variadic
    [rawData] holds.  [DOther] is a value of any type that the middleware
    and the collaborator give no meaning to here. *)
Inductive RawDatum : Type :=
| DConfiguration (c : Configuration)
| DHandledState (s : HandledState)
| DContext (ctx : Context)
| DRequest (r : ptr)
| DOther (typeName : string).

(** [bugsnag.Notifier]: its configuration ([New().Config] in
    [TestConfigure]), the values bound to it, and the switch set by
    [FlushSessionsOnRepanic]. *)
Record Notifier : Type := {
  NotifierConfig : Configuration;
  RawData : list RawDatum;
  flushSessionsOnRepanic : bool
}.

(** The event of a report, with the fields [assertPayload] compares. *)
Record Event : Type := {
  EventError : PanicValue;
  EventHandledState : HandledState;
  EventSeverity : severity;
  EventUnhandled : bool;
  EventCtx : option Context;
  EventRequest : option ptr;
  EventRawData : list RawDatum
}.

(** What reaches an endpoint: [apiKey] and [events[0]] of the JSON
    payload, and the URL it is posted to. *)
Record Payload : Type := {
  PayloadEndpoint : string;
  PayloadAPIKey : string;
  PayloadEvent : Event
}.

(** ** Program state *)

(** The calls the middleware and the collaborator make, in program
    order. *)
Inductive Call : Type :=
| CallConfigure (c : Configuration)
| CallCopy (c : ptr)
| CallStartSession (ctx : Context)
| CallAttachRequestData (ctx : Context) (r : ptr)
| CallWithContext (r : ptr) (ctx : Context)
| CallNew (rawData : list RawDatum)
| CallFlushSessionsOnRepanic (flush : bool)
| CallNext (c : ptr)
| CallAutoNotify (rawData : list RawDatum)
| CallNotifySync (e : Event)
| CallFlushSessions.

Record World : Type := {
  Config : Configuration;        (* the package variable [bugsnag.Config] *)
  sessionsStarted : nat;         (* the session tracker *)
  requests : list Request;       (* heap of [http.Request] *)
  contexts : list GinContext;    (* heap of [gin.Context] *)
  outbox : list Payload;         (* payloads handed to delivery, oldest first *)
  log : list Call                (* calls made so far, oldest first *)
}.

Definition set_Config (c : Configuration) (w : World) : World :=
  {| Config := c; sessionsStarted := sessionsStarted w; requests := requests w;
     contexts := contexts w; outbox := outbox w; log := log w |}.

Definition set_sessionsStarted (n : nat) (w : World) : World :=
  {| Config := Config w; sessionsStarted := n; requests := requests w;
     contexts := contexts w; outbox := outbox w; log := log w |}.

Definition set_requests (rs : list Request) (w : World) : World :=
  {| Config := Config w; sessionsStarted := sessionsStarted w; requests := rs;
     contexts := contexts w; outbox := outbox w; log := log w |}.

Definition set_contexts (cs : list GinContext) (w : World) : World :=
  {| Config := Config w; sessionsStarted := sessionsStarted w; requests := requests w;
     contexts := cs; outbox := outbox w; log := log w |}.

Definition set_outbox (ps : list Payload) (w : World) : World :=
  {| Config := Config w; sessionsStarted := sessionsStarted w; requests := requests w;
     contexts := contexts w; outbox := ps; log := log w |}.

Definition set_log (l : list Call) (w : World) : World :=
  {| Config := Config w; sessionsStarted := sessionsStarted w; requests := requests w;
     contexts := contexts w; outbox := outbox w; log := l |}.

(** ** Go control flow: return, panic, defer, recover *)

Inductive Result (A : Type) : Type :=
| Return (a : A)
| Panic (v : PanicValue).

Arguments Return {A} a.
Arguments Panic {A} v.

(** A Go statement or call: it reads and changes the state and either
    returns or panics. *)
Definition Go (A : Type) : Type := World -> Result A * World.

Definition ret {A : Type} (a : A) : Go A := fun w => (Return a, w).

Definition panic {A : Type} (v : PanicValue) : Go A := fun w => (Panic v, w).

(** Sequencing: a panic skips what follows. *)
Definition bind {A B : Type} (m : Go A) (k : A -> Go B) : Go B :=
  fun w =>
    match m w with
    | (Return a, w') => k a w'
    | (Panic v, w') => (Panic v, w')
    end.

#[global] Instance Go_ret : MRet Go := @ret.
#[global] Instance Go_bind : MBind Go := fun A B k m => bind m k.

Definition gets {A : Type} (f : World -> A) : Go A := fun w => (Return (f w), w).

Definition modify (f : World -> World) : Go unit := fun w => (Return tt, f w).

Definition record (c : Call) : Go unit :=
  modify (fun w => set_log (log w ++ [c]) w).

(** Dereferencing: a nil or dangling pointer panics. *)
Definition deref {A : Type} (heap : World -> list A) (p : ptr) : Go A :=
  fun w =>
    match heap w !! p with
    | Some a => (Return a, w)
    | None => (Panic nilDereference, w)
    end.

(** [for _, x := range l { body }]. *)
Fixpoint for_range {A : Type} (l : list A) (body : A -> Go unit) : Go unit :=
  match l with
  | [] => ret tt
  | x :: l' => body x ;; for_range l' body
  end.

(** A deferred call.  It is entered with the panic that is unwinding the
    deferring function, if any; it leaves the panic still pending ([None]
    once [recover()] has been called, or when there was none) and itself
    returns or panics. *)
Definition Deferred : Type :=
  option PanicValue -> World -> Result unit * option PanicValue * World.

(** [defer d; body] in a function without results.  [d] runs when [body]
    has returned or panicked.  A panic raised by [d] replaces the one in
    flight; otherwise a panic that [d] did not recover keeps unwinding;
    otherwise the function returns normally. *)
Definition defer (d : Deferred) (body : Go unit) : Go unit :=
  fun w =>
    let '(res, w1) := body w in
    let pending := match res with Panic v => Some v | Return _ => None end in
    match d pending w1 with
    | (Panic v', _, w2) => (Panic v', w2)
    | (Return _, Some v, w2) => (Panic v, w2)
    | (Return _, None, w2) => (Return tt, w2)
    end.

(** The caller of [TestAutoNotify]:
    [func() { defer func() { p := recover(); ... }(); body }()].  The
    deferred closure recovers whatever panic reaches it. *)
Definition recovered_by_caller (body : Go unit) : Go (option PanicValue) :=
  fun w =>
    match body w with
    | (Panic v, w') => (Return (Some v), w')
    | (Return _, w') => (Return None, w')
    end.

(** ** The bugsnag package: operations *)

Definition orString (new old : string) : string :=
  match new with
  | EmptyString => old
  | _ => new
  end.

(** Modelled from the spec: [Configuration.update], the body of
    [bugsnag.Configure], is not under src/.  "Last-write-wins per
    overlapping field": every field that the new value sets replaces the
    current one, every other field is kept. *)
Definition Configuration_update (cfg other : Configuration) : Configuration :=
  {| APIKey := orString (APIKey other) (APIKey cfg);
     Endpoints_Notify := orString (Endpoints_Notify other) (Endpoints_Notify cfg);
     ReleaseStage := orString (ReleaseStage other) (ReleaseStage cfg);
     AppType := orString (AppType other) (AppType cfg);
     AppVersion := orString (AppVersion other) (AppVersion cfg);
     Hostname := orString (Hostname other) (Hostname cfg);
     ProjectPackages :=
       match ProjectPackages other with
       | [] => ProjectPackages cfg
       | pkgs => pkgs
       end;
     AutoCaptureSessions :=
       match AutoCaptureSessions other with
       | Some b => Some b
       | None => AutoCaptureSessions cfg
       end |}.

(** [Configuration.IsAutoCaptureSessions], as [TestConfigureTwice] uses
    it: enabled unless configured otherwise. *)
Definition IsAutoCaptureSessions (cfg : Configuration) : bool :=
  match AutoCaptureSessions cfg with
  | Some b => b
  | None => true
  end.

(** Modelled from the spec: [bugsnag.Configure] is not under src/.  It
    updates the process-wide configuration and has no error result. *)
Definition bugsnag_Configure (c : Configuration) : Go unit :=
  record (CallConfigure c) ;;
  modify (fun w => set_Config (Configuration_update (Config w) c) w).

(** Modelled from the spec: [bugsnag.StartSession] is not under src/.
    "Begins or continues a delivery session": the session tracker hands
    out a session and the result is a context derived from the given
    one. *)
Definition bugsnag_StartSession (ctx : Context) : Go Context :=
  record (CallStartSession ctx) ;;
  session ← gets sessionsStarted;
  modify (set_sessionsStarted (S session)) ;;
  mret (WithSession ctx session).

(** Modelled from the spec: [bugsnag.AttachRequestData] is not under
    src/.  It derives a context that carries the request. *)
Definition bugsnag_AttachRequestData (ctx : Context) (r : ptr) : Go Context :=
  record (CallAttachRequestData ctx r) ;;
  mret (WithRequestData ctx r).

(** Modelled from the spec: [bugsnag.New] is not under src/.  "Builds a
    per-call reporting handle bound to the given extra values"; its
    configuration starts from the global one, as [TestConfigure] checks,
    and session flushing on repanic is on until it is turned off. *)
Definition bugsnag_New (rawData : list RawDatum) : Go Notifier :=
  record (CallNew rawData) ;;
  config ← gets Config;
  mret {| NotifierConfig := config; RawData := rawData;
          flushSessionsOnRepanic := true |}.

(** Modelled from the spec: [Notifier.FlushSessionsOnRepanic] is not
    under src/.  A switch of the notifier, read when a panic is
    reported. *)
Definition Notifier_FlushSessionsOnRepanic (notifier : Notifier) (flush : bool)
  : Go Notifier :=
  record (CallFlushSessionsOnRepanic flush) ;;
  mret {| NotifierConfig := NotifierConfig notifier; RawData := RawData notifier;
          flushSessionsOnRepanic := flush |}.

(** Modelled from the spec: the session tracker's [FlushSessions] is not
    under src/; [testSessionTracker] shows its signature. *)
Definition bugsnag_FlushSessions : Go unit := record CallFlushSessions.

(** The state of a panic report that names none: [TestAutoNotify]
    expects severity "error", reason [SeverityReasonHandledPanic] and
    [unhandled] true. *)
Definition defaultPanicState : HandledState :=
  {| SeverityReason := SeverityReasonHandledPanic;
     OriginalSeverity := SeverityError;
     Unhandled := true;
     Framework := EmptyString |}.

Definition pickHandledState (acc : HandledState) (datum : RawDatum) : HandledState :=
  match datum with
  | DHandledState s => s
  | _ => acc
  end.

Definition pickConfiguration (acc : Configuration) (datum : RawDatum) : Configuration :=
  match datum with
  | DConfiguration c => Configuration_update acc c
  | _ => acc
  end.

Definition pickContext (acc : option Context) (datum : RawDatum) : option Context :=
  match datum with
  | DContext ctx => Some ctx
  | _ => acc
  end.

Definition pickRequest (acc : option ptr) (datum : RawDatum) : option ptr :=
  match datum with
  | DRequest r => Some r
  | _ => acc
  end.

(** Modelled from the spec: the event construction is not under src/.
    "Constructs an event tagged with the supplied Severity/Attribution
    Metadata": the values bound to the notifier and then those of the
    call are read in order; a [HandledState] sets the event's state,
    severity and unhandled flag, a [Configuration] updates the
    configuration the event is sent with ([TestAutoNotify] passes its
    endpoint that way), a context and a request are recorded. *)
Definition newEvent (notifier : Notifier) (err : PanicValue) (rawData : list RawDatum)
  : Event * Configuration :=
  let data := RawData notifier ++ rawData in
  let state := fold_left pickHandledState data defaultPanicState in
  ({| EventError := err;
      EventHandledState := state;
      EventSeverity := OriginalSeverity state;
      EventUnhandled := Unhandled state;
      EventCtx := fold_left pickContext data None;
      EventRequest := fold_left pickRequest data None;
      EventRawData := data |},
   fold_left pickConfiguration data (NotifierConfig notifier)).

(** Modelled from the spec: [Notifier.NotifySync] is not under src/.
    One report: the event is built and handed to delivery for the
    endpoint of its configuration.  Delivery failures are the
    collaborator's and do not reach the caller. *)
Definition Notifier_NotifySync (notifier : Notifier) (err : PanicValue)
    (rawData : list RawDatum) : Go unit :=
  let '(event, config) := newEvent notifier err rawData in
  record (CallNotifySync event) ;;
  modify (fun w =>
    set_outbox (outbox w ++ [ {| PayloadEndpoint := Endpoints_Notify config;
                                 PayloadAPIKey := APIKey config;
                                 PayloadEvent := event |} ]) w).

(** Modelled from the spec: [Notifier.AutoNotify] is not under src/.  It
    "inspects the currently-unwinding panic (if any) via the host
    language's own panic-recovery primitive", reports it, and the panic
    goes on with the recovered value: [TestAutoNotify] fails with
    "didn't re-panic" otherwise, and the comment of
    [bugsnaggin.AutoNotify] says "sends any panics to bugsnag, and then
    re-raises them".  In Go that is
    [if err := recover(); err != nil { ...; panic(err) }]. *)
Definition Notifier_AutoNotify (notifier : Notifier) (rawData : list RawDatum)
  : Deferred :=
  fun pending w =>
    let w := set_log (log w ++ [CallAutoNotify rawData]) w in
    match pending with
    | Some err =>
        let '(res, w') :=
          (Notifier_NotifySync notifier err rawData ;;
           (if flushSessionsOnRepanic notifier
            then bugsnag_FlushSessions else mret tt) ;;
           panic err) w in
        (res, None, w')
    | None => (Return tt, None, w)
    end.

(** Modelled from the spec: the package-level [bugsnag.AutoNotify] is
    not under src/.  It is [AutoNotify] of the default notifier, which
    has the global configuration and no bound values; [TestAutoNotify]
    defers it. *)
Definition bugsnag_AutoNotify (rawData : list RawDatum) : Deferred :=
  fun pending w =>
    Notifier_AutoNotify
      {| NotifierConfig := Config w; RawData := [];
         flushSessionsOnRepanic := true |} rawData pending w.

(** ** Gin and net/http: operations *)

(** [Copy] of [gin.Context]: a new [gin.Context] holding a copy of the
    struct.  [Request] is a pointer field, so the copy refers to the same
    [http.Request] as the original. *)
Definition gin_Context_Copy (c : ptr) : Go ptr :=
  record (CallCopy c) ;;
  gc ← deref contexts c;
  cp ← gets (fun w => length (contexts w));
  modify (fun w => set_contexts (contexts w ++ [gc]) w) ;;
  mret cp.

(** The field read [c.Request]. *)
Definition gin_Context_Request (c : ptr) : Go ptr :=
  gc ← deref contexts c;
  mret (GinRequest gc).

(** The assignment [c.Request = r]. *)
Definition gin_Context_set_Request (c : ptr) (r : ptr) : Go unit :=
  gc ← deref contexts c;
  modify (fun w =>
    set_contexts (<[c := {| GinRequest := r; Writer := Writer gc |}]> (contexts w)) w).

(** [Context] of [http.Request]: the request's context, or the background
    context when it has none. *)
Definition Request_Context (req : Request) : Context :=
  default Background (reqCtx req).

Definition http_Request_Context (r : ptr) : Go Context :=
  req ← deref requests r;
  mret (Request_Context req).

(** [WithContext] of [http.Request]: "a shallow copy of r with its context
    changed to ctx", a new request object. *)
Definition http_Request_WithContext (r : ptr) (ctx : Context) : Go ptr :=
  record (CallWithContext r ctx) ;;
  req ← deref requests r;
  r2 ← gets (fun w => length (requests w));
  modify (fun w =>
    set_requests (requests w ++ [ {| Method := Method req; URL := URL req;
                                     reqCtx := Some ctx |} ]) w) ;;
  mret r2.

(** ** gin/bugsnaggin.go *)

Definition FrameworkName : string := "Gin".

(** The [HandledState] literal of [AutoNotify]. *)
Definition middlewareState : HandledState :=
  {| SeverityReason := SeverityReasonUnhandledMiddlewareError;
     OriginalSeverity := SeverityError;
     Unhandled := true;
     Framework := FrameworkName |}.

(** The [gin.HandlerFunc] that [AutoNotify] returns: a closure over
    [rawData].  A slice is a list and [append] adds at its end. *)
Record HandlerFunc : Type := {
  closure_rawData : list RawDatum
}.

(** [func AutoNotify(rawData ...interface{}) gin.HandlerFunc]. *)
Definition AutoNotify (rawData : list RawDatum) : Go HandlerFunc :=
  for_range rawData (fun datum =>
    match datum with
    | DConfiguration c => bugsnag_Configure c
    | _ => mret tt
    end) ;;
  let state := middlewareState in
  let rawData := rawData ++ [DHandledState state] in
  mret {| closure_rawData := rawData |}.

Section Handler.

(** [c.Next()] runs the rest of the handler chain: any Go code. *)
Variable Next : ptr -> Go unit.

Definition gin_Context_Next (c : ptr) : Go unit :=
  record (CallNext c) ;;
  Next c.

(** The returned closure up to its [defer] statement: the context, the
    request and the notifier that the deferred call is made with. *)
Definition HandlerFunc_enter (h : HandlerFunc) (c : ptr)
  : Go (Context * ptr * Notifier) :=
  cp ← gin_Context_Copy c;
  r ← gin_Context_Request cp;
  ctx ← http_Request_Context r;
  ctx ← bugsnag_StartSession ctx;
  ctx ← bugsnag_AttachRequestData ctx r;
  r' ← http_Request_WithContext r ctx;
  gin_Context_set_Request c r' ;;
  notifier ← bugsnag_New (closure_rawData h ++ [DRequest r]);
  notifier ← Notifier_FlushSessionsOnRepanic notifier false;
  mret (ctx, r, notifier).

(** The returned closure, [func(c *gin.Context) { ... }].  The arguments
    of a deferred call are evaluated at the [defer] statement. *)
Definition HandlerFunc_call (h : HandlerFunc) (c : ptr) : Go unit :=
  '(ctx, r, notifier) ← HandlerFunc_enter h c;
  defer (Notifier_AutoNotify notifier [DContext ctx; DRequest r])
        (gin_Context_Next c).

End Handler.

(** ** The state in which the rest of the chain runs *)

(** The request must be served on a live [gin.Context] whose request
    pointer is live; Gin creates both before it runs any handler. *)
Definition valid (w : World) (c : ptr) : bool :=
  match contexts w !! c with
  | Some gc =>
      match requests w !! GinRequest gc with
      | Some _ => true
      | None => false
      end
  | None => false
  end.

(** [c.Request] in state [w]: the request that a handler reading the
    framework context gets. *)
Definition requestOf (w : World) (c : ptr) : option ptr :=
  GinRequest <$> contexts w !! c.

(** [c.Request.Context()] in state [w]. *)
Definition contextOf (w : World) (c : ptr) : option Context :=
  gc ← contexts w !! c;
  req ← requests w !! GinRequest gc;
  Some (Request_Context req).

(** The state that [c.Next()] starts the rest of the chain in. *)
Definition world_at_Next (h : HandlerFunc) (c : ptr) (w : World) : World :=
  snd ((HandlerFunc_enter h c ;; record (CallNext c)) w).

(** The context and the request that the [defer] statement passes to
    [notifier.AutoNotify]. *)
Definition deferredArguments (h : HandlerFunc) (c : ptr) (w : World)
  : option (Context * ptr) :=
  match fst (HandlerFunc_enter h c w) with
  | Return (ctx, r, _) => Some (ctx, r)
  | Panic _ => None
  end.

(** The context derived at entry. *)
Definition derivedContext (w : World) (req : Request) (r : ptr) : Context :=
  WithRequestData (WithSession (Request_Context req) (sessionsStarted w)) r.

(** The notifier made at entry. *)
Definition requestNotifier (h : HandlerFunc) (w : World) (r : ptr) : Notifier :=
  {| NotifierConfig := Config w;
     RawData := closure_rawData h ++ [DRequest r];
     flushSessionsOnRepanic := false |}.

(** The calls made at entry, before [c.Next()]. *)
Definition entryCalls (h : HandlerFunc) (c : ptr) (w : World) (req : Request)
    (r : ptr) : list Call :=
  [ CallCopy c;
    CallStartSession (Request_Context req);
    CallAttachRequestData (WithSession (Request_Context req) (sessionsStarted w)) r;
    CallWithContext r (derivedContext w req r);
    CallNew (closure_rawData h ++ [DRequest r]);
    CallFlushSessionsOnRepanic false ].

Definition enteredWorld (h : HandlerFunc) (c : ptr) (w : World)
    (gc : GinContext) (req : Request) : World :=
  let r := GinRequest gc in
  {| Config := Config w;
     sessionsStarted := S (sessionsStarted w);
     requests := requests w ++ [ {| Method := Method req; URL := URL req;
                                    reqCtx := Some (derivedContext w req r) |} ];
     contexts := <[c := {| GinRequest := length (requests w);
                           Writer := Writer gc |}]> (contexts w ++ [gc]);
     outbox := outbox w;
     log := log w ++ entryCalls h c w req r |}.

(** The world after a reported panic: one call of the deferred report,
    one report, one payload. *)
Definition reportedWorld (notifier : Notifier) (V : PanicValue)
    (args : list RawDatum) (w2 : World) : World :=
  let '(event, config) := newEvent notifier V args in
  set_outbox (outbox w2 ++ [ {| PayloadEndpoint := Endpoints_Notify config;
                                PayloadAPIKey := APIKey config;
                                PayloadEvent := event |} ])
    (set_log (log w2 ++ [CallAutoNotify args; CallNotifySync event]) w2).

(** The [Configuration] values among the extra values, in order. *)
Definition configurations (rawData : list RawDatum) : list Configuration :=
  omap (fun datum => match datum with
                     | DConfiguration c => Some c
                     | _ => None
                     end) rawData.

(** The world after the configuration loop of [AutoNotify]. *)
Definition configuredWorld (rawData : list RawDatum) (w : World) : World :=
  {| Config := fold_left Configuration_update (configurations rawData) (Config w);
     sessionsStarted := sessionsStarted w;
     requests := requests w;
     contexts := contexts w;
     outbox := outbox w;
     log := log w ++ map CallConfigure (configurations rawData) |}.

(** The string-valued fields of [Configuration]. *)
Definition stringFields : list (Configuration -> string) :=
  [APIKey; Endpoints_Notify; ReleaseStage; AppType; AppVersion; Hostname].

(** The attribution metadata a handler reports with: the last
    [HandledState] it closes over. *)
Definition HandlerFunc_state (h : HandlerFunc) : HandledState :=
  fold_left pickHandledState (closure_rawData h) defaultPanicState.

(** ** The scenarios of [bugsnag_test.go] *)

Definition testAPIKey : string := "166f5ad3590596f9aa8d601ea89af845".

(** [generateSampleConfig], without its logger. *)
Definition generateSampleConfig (endpoint : string) : Configuration :=
  {| APIKey := testAPIKey;
     Endpoints_Notify := endpoint;
     ReleaseStage := "test";
     AppType := "foo";
     AppVersion := "1.2.3";
     Hostname := "web1";
     ProjectPackages := ["github.com/bugsnag/bugsnag-go"];
     AutoCaptureSessions := None |}.

(** A server that has just accepted [GET /ok?foo=bar] and made one
    [gin.Context] for it; nothing is configured yet. *)
Definition startWorld : World :=
  {| Config := Configuration_zero;
     sessionsStarted := 0;
     requests := [ {| Method := "GET"; URL := "/ok?foo=bar";
                      reqCtx := Some Background |} ];
     contexts := [ {| GinRequest := 0;
                      Writer := {| Status := 200; Body := EmptyString |} |} ];
     outbox := [];
     log := [] |}.

(** [panic(fmt.Errorf("eggs"))], as in [TestAutoNotify]. *)
Definition eggsHandler : ptr -> Go unit :=
  fun _ => panic (VError "eggs").

(** A handler that writes its answer and returns. *)
Definition okHandler : ptr -> Go unit :=
  fun c =>
    gc ← deref contexts c;
    modify (fun w =>
      set_contexts (<[c := {| GinRequest := GinRequest gc;
                              Writer := {| Status := 200; Body := "ok" |} |}]>
                      (contexts w)) w).

(** A handler that overwrites the request it finds on [c.Request], then
    replaces [c.Request] by a further copy with an empty context, and
    panics. *)
Definition replacingHandler : ptr -> Go unit :=
  fun c =>
    r ← gin_Context_Request c;
    modify (fun w =>
      set_requests (<[r := {| Method := "POST"; URL := "/other";
                              reqCtx := None |}]> (requests w)) w) ;;
    r' ← http_Request_WithContext r Background;
    gin_Context_set_Request c r' ;;
    panic (VString "ham").

Definition testEndpoint : string := "http://127.0.0.1:9000".

(** What [AutoNotify(generateSampleConfig(testEndpoint))] closes over. *)
Definition sampleHandler : HandlerFunc :=
  {| closure_rawData := [DConfiguration (generateSampleConfig testEndpoint);
                         DHandledState middlewareState] |}.

(** The function literal of [TestAutoNotify] that defers
    [AutoNotify(StartSession(context.Background()), generateSampleConfig(ts.URL))]
    and panics. *)
Definition TestAutoNotify_body (endpoint : string) : Go unit :=
  ctx ← bugsnag_StartSession Background;
  defer (bugsnag_AutoNotify [DContext ctx;
                             DConfiguration (generateSampleConfig endpoint)])
        (panic (VError "eggs")).

(** [Configuration{AutoCaptureSessions: b}]. *)
Definition withAutoCaptureSessions (b : bool) : Configuration :=
  {| APIKey := EmptyString; Endpoints_Notify := EmptyString;
     ReleaseStage := EmptyString; AppType := EmptyString;
     AppVersion := EmptyString; Hostname := EmptyString;
     ProjectPackages := []; AutoCaptureSessions := Some b |}.

(** ** bugsnag_test.go: the payload helpers *)

Module BugsnagTest.

(** A decoded JSON document, as [simplejson] holds it.  An object is a
    map: at most one entry per key is meant and a lookup takes the first.
    A number is an integer literal. *)
#[warnings="-register-all"]
Inductive Json : Type :=
| JNull
| JBool (b : bool)
| JNumber (z : Z)
| JString (s : string)
| JArray (a : list Json)
| JObject (m : list (string * Json)).

Fixpoint Json_lookup (key : string) (m : list (string * Json)) : option Json :=
  match m with
  | [] => None
  | (k, v) :: m' => if String.eqb k key then Some v else Json_lookup key m'
  end.

(** [Get] of [simplejson]: the value under [key], or a null document
    when there is none or [j] is not an object. *)
Definition Json_Get (j : Json) (key : string) : Json :=
  match j with
  | JObject m => default JNull (Json_lookup key m)
  | _ => JNull
  end.

(** [GetPath] of [simplejson]: [Get] along the branch. *)
Definition Json_GetPath (j : Json) (branch : list string) : Json :=
  fold_left Json_Get branch j.

Definition indexOutOfRange : PanicValue := VRuntimeError "index out of range".

(** [GetIndex] of [simplejson]: [if len(a) > index { return a[index] }],
    a null document otherwise; a negative index into an array panics. *)
Definition Json_GetIndex (j : Json) (index : Z) : Result Json :=
  match j with
  | JArray a =>
      if (index <? Z.of_nat (length a))%Z
      then match (if (index <? 0)%Z then None else a !! Z.to_nat index) with
           | Some v => Return v
           | None => Panic indexOutOfRange
           end
      else Return JNull
  | _ => Return JNull
  end.

(** [MustString], [MustBool] and [MustInt] of [simplejson], without a
    default argument: the zero value when the document is not of the
    type, and for a number that does not fit Go's [int]. *)
Definition Json_MustString (j : Json) : string :=
  match j with
  | JString s => s
  | _ => EmptyString
  end.

Definition Json_MustBool (j : Json) : bool :=
  match j with
  | JBool b => b
  | _ => false
  end.

Definition Json_MustInt (j : Json) : Z :=
  match j with
  | JNumber z =>
      if ((-9223372036854775808 <=? z) && (z <=? 9223372036854775807))%Z
      then z else 0%Z
  | _ => 0%Z
  end.

(** [strings.Split(s, sep)] for a separator of one byte: the pieces
    between the separators, one more than there are separators. *)
Fixpoint strings_Split (s : string) (sep : ascii) : list string :=
  match s with
  | EmptyString => [EmptyString]
  | String ch rest =>
      if Ascii.eqb ch sep
      then EmptyString :: strings_Split rest sep
      else match strings_Split rest sep with
           | piece :: pieces => String ch piece :: pieces
           | [] => [String ch EmptyString]
           end
  end.

Definition dot : ascii := "."%char.

(** Whether byte [ch] occurs in [s]. *)
Fixpoint hasByte (ch : ascii) (s : string) : bool :=
  match s with
  | EmptyString => false
  | String ch' rest => Ascii.eqb ch' ch || hasByte ch rest
  end.

(** [func get(j *simplejson.Json, path string) *simplejson.Json]. *)
Definition get (j : Json) (path : string) : Json :=
  Json_GetPath j (strings_Split path dot).

Definition getBool (j : Json) (path : string) : bool :=
  Json_MustBool (get j path).

Definition getInt (j : Json) (path : string) : Z :=
  Json_MustInt (get j path).

Definition getString (j : Json) (path : string) : string :=
  Json_MustString (get j path).

Definition getIndex (j : Json) (path : string) (index : Z) : Result Json :=
  Json_GetIndex (get j path) index.

Definition getFirstString (j : Json) (path : string) : Result string :=
  match getIndex j path 0 with
  | Return v => Return (Json_MustString v)
  | Panic p => Panic p
  end.

(** *** testing.T *)

(** A value passed as [interface{}] to a comparison or to a message. *)
Inductive iface : Type :=
| IString (s : string)
| IBool (b : bool)
| IInt (z : Z)
| IError (msg : string).

#[global] Instance iface_eq_dec : EqDecision iface.
Proof. solve_decision. Defined.

(** A failure recorded on [*testing.T]: the call with its format and
    arguments. *)
Inductive Failure : Type :=
| Errorf (format : string) (args : list iface)
| Error (args : list iface).

(** A test helper: it adds failures to those recorded and returns or
    panics. *)
Definition T (A : Type) : Type := list Failure -> Result A * list Failure.

Definition T_ret {A : Type} (a : A) : T A := fun fs => (Return a, fs).

Definition T_bind {A B : Type} (m : T A) (k : A -> T B) : T B :=
  fun fs =>
    match m fs with
    | (Return a, fs') => k a fs'
    | (Panic v, fs') => (Panic v, fs')
    end.

#[global] Instance T_mret : MRet T := @T_ret.
#[global] Instance T_mbind : MBind T := fun A B k m => T_bind m k.

Definition t_Errorf (format : string) (args : list iface) : T unit :=
  fun fs => (Return tt, fs ++ [Errorf format args]).

Definition t_Error (args : list iface) : T unit :=
  fun fs => (Return tt, fs ++ [Error args]).

(** A pure result inside a helper. *)
Definition lift {A : Type} (r : Result A) : T A := fun fs => (r, fs).

(** Dereferencing a pointer field of the expectation. *)
Definition derefField {A : Type} (p : option A) : T A :=
  match p with
  | Some a => mret a
  | None => lift (Panic nilDereference)
  end.

Fixpoint T_for_range {A : Type} (l : list A) (body : A -> T unit) : T unit :=
  match l with
  | [] => mret tt
  | x :: l' => body x ;; T_for_range l' body
  end.

(** *** The expectation types

    [eventJSON] and the types of its fields are declared outside
    [bugsnag_test.go]; these are the fields the tests set and the
    helpers read. *)

Record appJSON : Type := {
  app_ReleaseStage : string;
  app_Type : string;
  app_Version : string
}.

Record deviceJSON : Type := {
  device_Hostname : string
}.

Record eventCountsJSON : Type := {
  counts_Handled : Z;
  counts_Unhandled : Z
}.

Record sessionJSON : Type := {
  session_Events : eventCountsJSON
}.

Record severityReasonJSON : Type := {
  severityReason_Type : string
}.

Record User : Type := {
  user_Id : string;
  user_Name : string;
  user_Email : string
}.

Record exceptionJSON : Type := {
  exception_ErrorClass : string;
  exception_Message : string
}.

Record eventJSON : Type := {
  exp_App : option appJSON;
  exp_Context : string;
  exp_Device : option deviceJSON;
  exp_GroupingHash : string;
  exp_Session : option sessionJSON;
  exp_Severity : string;
  exp_SeverityReason : option severityReasonJSON;
  exp_Unhandled : bool;
  exp_User : option User;
  exp_Exceptions : list exceptionJSON
}.

Record stackFrame : Type := {
  frame_File : string;
  frame_Method : string;
  frame_LineNumber : Z;
  frame_InProject : bool
}.

(** One line of the table of [assertPayload]. *)
Record testCase : Type := {
  prop : string;
  exp : iface;
  got : iface
}.

Section Helpers.

(** [bugsnag.VERSION], declared outside [bugsnag_test.go]. *)
Variable VERSION : string.

(** [time.Parse(time.RFC3339, s)]: the error, if any. *)
Variable time_Parse_RFC3339 : string -> option string.

(** The table of [assertPayload]. *)
Definition payloadCases (report event exception : Json) (expException : exceptionJSON)
    (app : appJSON) (user : User) (device : deviceJSON)
    (severityReason : severityReasonJSON) (e : eventJSON) : list testCase :=
  [ {| prop := "API Key"; exp := IString testAPIKey;
       got := IString (getString report "apiKey") |};
    {| prop := "notifier name"; exp := IString "Bugsnag Go";
       got := IString (getString report "notifier.name") |};
    {| prop := "notifier version"; exp := IString VERSION;
       got := IString (getString report "notifier.version") |};
    {| prop := "notifier url"; exp := IString "https://github.com/bugsnag/bugsnag-go";
       got := IString (getString report "notifier.url") |};
    {| prop := "exception message"; exp := IString (exception_Message expException);
       got := IString (getString exception "message") |};
    {| prop := "exception error class"; exp := IString (exception_ErrorClass expException);
       got := IString (getString exception "errorClass") |};
    {| prop := "unhandled"; exp := IBool (exp_Unhandled e);
       got := IBool (getBool event "unhandled") |};
    {| prop := "app version"; exp := IString (app_Version app);
       got := IString (getString event "app.version") |};
    {| prop := "app release stage"; exp := IString (app_ReleaseStage app);
       got := IString (getString event "app.releaseStage") |};
    {| prop := "app type"; exp := IString (app_Type app);
       got := IString (getString event "app.type") |};
    {| prop := "user id"; exp := IString (user_Id user);
       got := IString (getString event "user.id") |};
    {| prop := "user name"; exp := IString (user_Name user);
       got := IString (getString event "user.name") |};
    {| prop := "user email"; exp := IString (user_Email user);
       got := IString (getString event "user.email") |};
    {| prop := "context"; exp := IString (exp_Context e);
       got := IString (getString event "context") |};
    {| prop := "device hostname"; exp := IString (device_Hostname device);
       got := IString (getString event "device.hostname") |};
    {| prop := "grouping hash"; exp := IString (exp_GroupingHash e);
       got := IString (getString event "groupingHash") |};
    {| prop := "payload version"; exp := IString "4";
       got := IString (getString event "payloadVersion") |};
    {| prop := "severity"; exp := IString (exp_Severity e);
       got := IString (getString event "severity") |};
    {| prop := "severity reason type"; exp := IString (severityReason_Type severityReason);
       got := IString (getString event "severityReason.type") |} ].

(** What one line of the table adds to the failures. *)
Definition caseFailures (tc : testCase) : list Failure :=
  if decide (got tc = exp tc)
  then []
  else [Errorf "Wrong %s: expected '%v' but got '%v'"
               [IString (prop tc); exp tc; got tc]].

(** The body of the loop of [assertPayload]. *)
Definition checkCase (tc : testCase) : T unit :=
  if decide (got tc = exp tc)
  then mret tt
  else t_Errorf "Wrong %s: expected '%v' but got '%v'"
                [IString (prop tc); exp tc; got tc].

(** [func assertPayload(t *testing.T, report *simplejson.Json, exp eventJSON)].
    The table is built before the loop runs, so the pointer fields of
    the expectation are dereferenced before any comparison. *)
Definition assertPayload (report : Json) (e : eventJSON) : T unit :=
  expException ← match exp_Exceptions e with
                 | x :: _ => mret x
                 | [] => lift (Panic indexOutOfRange)
                 end;
  event ← lift (getIndex report "events" 0);
  exception ← lift (getIndex event "exceptions" 0);
  app ← derefField (exp_App e);
  user ← derefField (exp_User e);
  device ← derefField (exp_Device e);
  severityReason ← derefField (exp_SeverityReason e);
  T_for_range
    (payloadCases report event exception expException app user device severityReason e)
    checkCase.

(** [func assertValidSession(t *testing.T, event *simplejson.Json, unhandled bool)]. *)
Definition assertValidSession (event : Json) (unhandled : bool) : T unit :=
  (let sessionID := getString event "session.id" in
   if decide (String.length sessionID = 36)
   then mret tt
   else t_Errorf "Expected a valid session ID to be set but was '%s'"
                 [IString sessionID]) ;;
  (match time_Parse_RFC3339 (getString event "session.startedAt") with
   | Some e => t_Error [IError e]
   | None => mret tt
   end) ;;
  let '(expHandled, expUnhandled) := if unhandled then (0, 1)%Z else (1, 0)%Z in
  (let got := getInt event "session.events.unhandled" in
   if decide (got = expUnhandled)
   then mret tt
   else t_Errorf "Expected %d unhandled events in session but was %d"
                 [IInt expUnhandled; IInt got]) ;;
  (let got := getInt event "session.events.handled" in
   if decide (got = expHandled)
   then mret tt
   else t_Errorf "Expected %d handled events in session but was %d"
                 [IInt expHandled; IInt got]).

(** [func checkFrame(t *testing.T, frame *simplejson.Json, exp stackFrame)]. *)
Definition checkFrame (frame : Json) (e : stackFrame) : T unit :=
  (let got := getString frame "file" in
   if decide (got = frame_File e)
   then mret tt
   else t_Errorf "Expected frame file to be '%s' but was '%s'"
                 [IString (frame_File e); IString got]) ;;
  (let got := getString frame "method" in
   if decide (got = frame_Method e)
   then mret tt
   else t_Errorf "Expected frame method to be '%s' but was '%s'"
                 [IString (frame_Method e); IString got]) ;;
  (let got := getInt frame "lineNumber" in
   if decide (got = 0%Z)
   then t_Errorf "Expected frame line number to be %d but was %d"
                 [IInt (frame_LineNumber e); IInt got]
   else mret tt) ;;
  (let got := getBool frame "inProject" in
   if decide (got = frame_InProject e)
   then mret tt
   else t_Errorf "Expected frame inProject to be '%v' but was '%v'"
                 [IBool (frame_InProject e); IBool got]).

End Helpers.

(** An expectation that [assertPayload] can read: one exception at
    least and no nil pointer among the fields it dereferences. *)
Definition readable (e : eventJSON) : bool :=
  match exp_Exceptions e, exp_App e, exp_User e, exp_Device e, exp_SeverityReason e with
  | _ :: _, Some _, Some _, Some _, Some _ => true
  | _, _, _, _, _ => false
  end.

(** The first element under [path], a null document when there is
    none: [getIndex(j, path, 0)]. *)
Definition firstAt (j : Json) (path : string) : Json :=
  match getIndex j path 0 with
  | Return v => v
  | Panic _ => JNull
  end.

(** The expectation of [TestAutoNotify], for a given value of the
    constant [SeverityReasonHandledPanic]. *)
Definition expTestAutoNotify (handledPanic : string) : eventJSON :=
  {| exp_App := Some {| app_ReleaseStage := "test"; app_Type := "foo";
                        app_Version := "1.2.3" |};
     exp_Context := EmptyString;
     exp_Device := Some {| device_Hostname := "web1" |};
     exp_GroupingHash := EmptyString;
     exp_Session := Some {| session_Events := {| counts_Handled := 0;
                                                  counts_Unhandled := 1 |} |};
     exp_Severity := "error";
     exp_SeverityReason := Some {| severityReason_Type := handledPanic |};
     exp_Unhandled := true;
     exp_User := Some {| user_Id := EmptyString; user_Name := EmptyString;
                         user_Email := EmptyString |};
     exp_Exceptions := [ {| exception_ErrorClass := "*errors.errorString";
                            exception_Message := "eggs" |} ] |}.

End BugsnagTest.

(** * Lemmas *)

Lemma valid_inv (w : World) (c : ptr) :
  valid w c = true ->
  exists gc req, contexts w !! c = Some gc /\ requests w !! GinRequest gc = Some req.
Proof.
  unfold valid. intros H.
  destruct (contexts w !! c) as [gc|] eqn:Hc; [|discriminate].
  destruct (requests w !! GinRequest gc) as [req|] eqn:Hr; [|discriminate].
  eauto.
Qed.

Lemma bind_Return {A B : Type} (m : Go A) (k : A -> Go B) (w w' : World) (a : A) :
  m w = (Return a, w') -> (m ≫= k) w = k a w'.
Proof. intros H. unfold mbind, Go_bind, bind. now rewrite H. Qed.

Lemma HandlerFunc_enter_Return (h : HandlerFunc) (c : ptr) (w : World)
    (gc : GinContext) (req : Request) :
  contexts w !! c = Some gc ->
  requests w !! GinRequest gc = Some req ->
  HandlerFunc_enter h c w =
    (Return (derivedContext w req (GinRequest gc), GinRequest gc,
             requestNotifier h w (GinRequest gc)),
     enteredWorld h c w gc req).
Proof.
  intros Hc Hr.
  assert (Hcp : (contexts w ++ [gc]) !! length (contexts w) = Some gc).
  { rewrite lookup_app_r by reflexivity. now rewrite Nat.sub_diag. }
  assert (Hc' : (contexts w ++ [gc]) !! c = Some gc).
  { apply lookup_app_l_Some. exact Hc. }
  unfold HandlerFunc_enter, gin_Context_Copy, gin_Context_Request,
    http_Request_Context, bugsnag_StartSession, bugsnag_AttachRequestData,
    http_Request_WithContext, gin_Context_set_Request, bugsnag_New,
    Notifier_FlushSessionsOnRepanic, record, deref, gets, modify,
    mbind, Go_bind, bind, mret, Go_ret, ret.
  cbn. rewrite Hc. cbn. rewrite Hcp. cbn. rewrite Hr. cbn. rewrite Hr. cbn.
  rewrite Hc'. cbn.
  unfold enteredWorld, requestNotifier, entryCalls, derivedContext.
  rewrite <- !app_assoc. reflexivity.
Qed.

Lemma world_at_Next_valid (h : HandlerFunc) (c : ptr) (w : World)
    (gc : GinContext) (req : Request) :
  contexts w !! c = Some gc ->
  requests w !! GinRequest gc = Some req ->
  world_at_Next h c w =
    set_log (log w ++ entryCalls h c w req (GinRequest gc) ++ [CallNext c])
            (enteredWorld h c w gc req).
Proof.
  intros Hc Hr. unfold world_at_Next.
  erewrite bind_Return by (apply HandlerFunc_enter_Return; eassumption).
  unfold record, modify, set_log, enteredWorld. cbn.
  now rewrite <- app_assoc.
Qed.

(** The closure is its entry part, then the deferred report wrapped
    around the rest of the chain. *)
Lemma HandlerFunc_call_valid (Next : ptr -> Go unit) (h : HandlerFunc) (c : ptr)
    (w : World) (gc : GinContext) (req : Request) :
  contexts w !! c = Some gc ->
  requests w !! GinRequest gc = Some req ->
  HandlerFunc_call Next h c w =
    defer (Notifier_AutoNotify (requestNotifier h w (GinRequest gc))
             [DContext (derivedContext w req (GinRequest gc));
              DRequest (GinRequest gc)])
          (Next c) (world_at_Next h c w).
Proof.
  intros Hc Hr. unfold HandlerFunc_call.
  erewrite bind_Return by (apply HandlerFunc_enter_Return; eassumption).
  rewrite (world_at_Next_valid h c w gc req Hc Hr).
  unfold defer, gin_Context_Next, record, modify, mbind, Go_bind, bind. cbn.
  unfold enteredWorld, set_log. cbn. rewrite <- app_assoc.
  reflexivity.
Qed.

Lemma HandlerFunc_call_Panic (Next : ptr -> Go unit) (h : HandlerFunc) (c : ptr)
    (w w2 : World) (gc : GinContext) (req : Request) (V : PanicValue) :
  contexts w !! c = Some gc ->
  requests w !! GinRequest gc = Some req ->
  Next c (world_at_Next h c w) = (Panic V, w2) ->
  HandlerFunc_call Next h c w =
    (Panic V,
     reportedWorld (requestNotifier h w (GinRequest gc)) V
       [DContext (derivedContext w req (GinRequest gc)); DRequest (GinRequest gc)]
       w2).
Proof.
  intros Hc Hr HN.
  rewrite (HandlerFunc_call_valid Next h c w gc req Hc Hr).
  unfold defer. rewrite HN.
  unfold Notifier_AutoNotify, Notifier_NotifySync, reportedWorld, newEvent,
    record, modify, panic, mbind, Go_bind, bind, mret, Go_ret, ret.
  cbn. unfold set_outbox, set_log. cbn. rewrite <- !app_assoc. reflexivity.
Qed.

Lemma HandlerFunc_call_Return (Next : ptr -> Go unit) (h : HandlerFunc) (c : ptr)
    (w w2 : World) (gc : GinContext) (req : Request) (u : unit) :
  contexts w !! c = Some gc ->
  requests w !! GinRequest gc = Some req ->
  Next c (world_at_Next h c w) = (Return u, w2) ->
  HandlerFunc_call Next h c w =
    (Return tt,
     set_log (log w2 ++ [CallAutoNotify
                           [DContext (derivedContext w req (GinRequest gc));
                            DRequest (GinRequest gc)]]) w2).
Proof.
  intros Hc Hr HN.
  rewrite (HandlerFunc_call_valid Next h c w gc req Hc Hr).
  unfold defer. rewrite HN. reflexivity.
Qed.

Lemma configure_loop (rawData : list RawDatum) (w : World) :
  for_range rawData (fun datum =>
    match datum with
    | DConfiguration c => bugsnag_Configure c
    | _ => mret tt
    end) w = (Return tt, configuredWorld rawData w).
Proof.
  revert w. induction rawData as [|datum rawData IH]; intros w.
  - unfold configuredWorld. destruct w. cbn. now rewrite app_nil_r.
  - cbn [for_range].
    destruct datum as [cfg| | | |];
      try (erewrite bind_Return by reflexivity; rewrite IH; reflexivity).
    erewrite bind_Return by reflexivity.
    rewrite IH. unfold configuredWorld. cbn.
    now rewrite <- app_assoc.
Qed.

Lemma AutoNotify_Return (rawData : list RawDatum) (w : World) :
  AutoNotify rawData w =
    (Return {| closure_rawData := rawData ++ [DHandledState middlewareState] |},
     configuredWorld rawData w).
Proof.
  unfold AutoNotify. erewrite bind_Return by apply configure_loop. reflexivity.
Qed.

Lemma AutoNotify_inv (rawData : list RawDatum) (w w' : World) (h : HandlerFunc) :
  AutoNotify rawData w = (Return h, w') ->
  h = {| closure_rawData := rawData ++ [DHandledState middlewareState] |} /\
  w' = configuredWorld rawData w.
Proof. rewrite AutoNotify_Return. intros H. now inversion H. Qed.

(** A handler built by [AutoNotify] reports with the state it was built
    with, whatever the extra values are. *)
Lemma newEvent_middlewareState (rawData : list RawDatum) (w : World) (r : ptr)
    (ctx : Context) (V : PanicValue) :
  EventHandledState
    (fst (newEvent
            (requestNotifier
               {| closure_rawData := rawData ++ [DHandledState middlewareState] |} w r)
            V [DContext ctx; DRequest r])) = middlewareState.
Proof.
  unfold newEvent, requestNotifier. cbn.
  rewrite <- !app_assoc. rewrite fold_left_app. reflexivity.
Qed.

Lemma entered_Writer (h : HandlerFunc) (c : ptr) (w : World)
    (gc : GinContext) (req : Request) :
  contexts w !! c = Some gc ->
  requests w !! GinRequest gc = Some req ->
  contexts (world_at_Next h c w) !! c =
    Some {| GinRequest := length (requests w); Writer := Writer gc |}.
Proof.
  intros Hc Hr. rewrite (world_at_Next_valid h c w gc req Hc Hr). cbn.
  apply list_lookup_insert_eq. rewrite length_app. cbn.
  apply lookup_lt_Some in Hc. lia.
Qed.

(** ** The collaborator model against the tests of [bugsnag_test.go] *)

(** [TestConfigure]: the key is set globally and in new notifiers. *)
Example TestConfigure :
  let '(res, w) :=
    (bugsnag_Configure (generateSampleConfig EmptyString) ;; bugsnag_New []) startWorld in
  APIKey (Config w) = testAPIKey /\
  exists notifier, res = Return notifier /\ APIKey (NotifierConfig notifier) = testAPIKey.
Proof. cbn. split; [reflexivity|]. eexists. split; reflexivity. Qed.

(** [TestConfigureTwice]: on by default, then off, then on again. *)
Example TestConfigureTwice :
  let c1 := Configuration_update Configuration_zero Configuration_zero in
  let c2 := Configuration_update c1 (withAutoCaptureSessions false) in
  let c3 := Configuration_update c2 (withAutoCaptureSessions true) in
  IsAutoCaptureSessions c1 = true /\
  IsAutoCaptureSessions c2 = false /\
  IsAutoCaptureSessions c3 = true.
Proof. repeat split. Qed.

(** [TestAutoNotify]: the caller recovers the error "eggs", and one
    payload reaches the endpoint of the configuration passed along, with
    severity "error", reason [SeverityReasonHandledPanic] and [unhandled]
    true. *)
Example TestAutoNotify :
  exists w payload,
    recovered_by_caller (TestAutoNotify_body testEndpoint) startWorld =
      (Return (Some (VError "eggs")), w) /\
    outbox w = [payload] /\
    PayloadEndpoint payload = testEndpoint /\
    PayloadAPIKey payload = testAPIKey /\
    EventError (PayloadEvent payload) = VError "eggs" /\
    severity_String (EventSeverity (PayloadEvent payload)) = "error" /\
    SeverityReason (EventHandledState (PayloadEvent payload)) = SeverityReasonHandledPanic /\
    EventUnhandled (PayloadEvent payload) = true.
Proof. eexists _, _. split; [vm_compute; reflexivity|]. repeat split. Qed.

(** A downstream handler that mutates and replaces [c.Request]: the
    report still gets the context and the request of the entry, and the
    reported request object is as it was. *)
Example replacing_request_keeps_report :
  exists w payload,
    HandlerFunc_call replacingHandler sampleHandler 0 startWorld =
      (Panic (VString "ham"), w) /\
    outbox w = [payload] /\
    EventCtx (PayloadEvent payload) =
      Some (WithRequestData (WithSession Background 0) 0) /\
    EventRequest (PayloadEvent payload) = Some 0 /\
    requestOf w 0 = Some 2 /\
    requests w !! 0 = requests startWorld !! 0.
Proof. eexists _, _. split; [vm_compute; reflexivity|]. repeat split. Qed.

(** * The claims *)

(** C1: for every handler built by [AutoNotify] and every downstream
    handler that panics with value [V], the deferred report step runs and
    then the panic goes on to the caller with the same value [V]: the
    call does not return normally and a caller that recovers gets [V]. *)
Theorem C1_panic_propagates_unchanged
    (Next : ptr -> Go unit) (rawData : list RawDatum) (w0 w0' : World)
    (h : HandlerFunc) (c : ptr) (w w2 : World) (V : PanicValue) :
  AutoNotify rawData w0 = (Return h, w0') ->
  valid w c = true ->
  Next c (world_at_Next h c w) = (Panic V, w2) ->
  exists w3 args event,
    HandlerFunc_call Next h c w = (Panic V, w3) /\
    log w3 = log w2 ++ [CallAutoNotify args; CallNotifySync event] /\
    recovered_by_caller (HandlerFunc_call Next h c) w = (Return (Some V), w3).
Proof.
  intros _ Hv HN.
  destruct (valid_inv w c Hv) as (gc & req & Hc & Hr).
  pose proof (HandlerFunc_call_Panic Next h c w w2 gc req V Hc Hr HN) as Hcall.
  eexists _, _, _. split; [exact Hcall|]. split.
  - unfold reportedWorld, newEvent. cbn. reflexivity.
  - unfold recovered_by_caller. now rewrite Hcall.
Qed.

Lemma C1_witness :
  AutoNotify [DConfiguration (generateSampleConfig testEndpoint)] startWorld =
    (Return sampleHandler,
     configuredWorld [DConfiguration (generateSampleConfig testEndpoint)] startWorld) /\
  valid startWorld 0 = true /\
  eggsHandler 0 (world_at_Next sampleHandler 0 startWorld) =
    (Panic (VError "eggs"), world_at_Next sampleHandler 0 startWorld) /\
  exists w3 args event,
    HandlerFunc_call eggsHandler sampleHandler 0 startWorld = (Panic (VError "eggs"), w3) /\
    log w3 = log (world_at_Next sampleHandler 0 startWorld)
               ++ [CallAutoNotify args; CallNotifySync event] /\
    recovered_by_caller (HandlerFunc_call eggsHandler sampleHandler 0) startWorld =
      (Return (Some (VError "eggs")), w3).
Proof.
  split; [reflexivity|]. split; [reflexivity|]. split; [reflexivity|].
  apply (C1_panic_propagates_unchanged eggsHandler
           [DConfiguration (generateSampleConfig testEndpoint)] startWorld
           (configuredWorld [DConfiguration (generateSampleConfig testEndpoint)] startWorld)
           sampleHandler 0 startWorld (world_at_Next sampleHandler 0 startWorld)
           (VError "eggs")); reflexivity.
Defined.

(** C2: for every handler built by [AutoNotify], if the downstream
    handler panics, exactly one report is attempted and its attribution
    metadata is the [HandledState] made at build time: unhandled, original
    severity [SeverityError], reason
    [SeverityReasonUnhandledMiddlewareError], framework "Gin".  The
    handler closes over that value, so every request it serves reports
    with it. *)
Theorem C2_one_report_with_build_time_state
    (Next : ptr -> Go unit) (rawData : list RawDatum) (w0 w0' : World)
    (h : HandlerFunc) (c : ptr) (w w2 : World) (V : PanicValue) :
  AutoNotify rawData w0 = (Return h, w0') ->
  valid w c = true ->
  Next c (world_at_Next h c w) = (Panic V, w2) ->
  exists w3 args payload,
    HandlerFunc_call Next h c w = (Panic V, w3) /\
    outbox w3 = outbox w2 ++ [payload] /\
    log w3 = log w2 ++ [CallAutoNotify args; CallNotifySync (PayloadEvent payload)] /\
    EventError (PayloadEvent payload) = V /\
    EventHandledState (PayloadEvent payload) =
      {| SeverityReason := SeverityReasonUnhandledMiddlewareError;
         OriginalSeverity := SeverityError;
         Unhandled := true;
         Framework := "Gin" |} /\
    EventSeverity (PayloadEvent payload) = SeverityError /\
    EventUnhandled (PayloadEvent payload) = true /\
    In (DHandledState (EventHandledState (PayloadEvent payload))) (closure_rawData h) /\
    HandlerFunc_state h = EventHandledState (PayloadEvent payload).
Proof.
  intros Hb Hv HN.
  destruct (AutoNotify_inv _ _ _ _ Hb) as [-> _].
  destruct (valid_inv w c Hv) as (gc & req & Hc & Hr).
  pose proof (HandlerFunc_call_Panic Next _ c w w2 gc req V Hc Hr HN) as Hcall.
  pose proof (newEvent_middlewareState rawData w (GinRequest gc)
                (derivedContext w req (GinRequest gc)) V) as Hst.
  unfold reportedWorld in Hcall.
  destruct (newEvent _ V _) as [event config] eqn:Hev.
  cbn [fst] in Hst.
  eexists _, _, _. split; [exact Hcall|].
  cbn. repeat split; try reflexivity; cbn [PayloadEvent].
  - unfold newEvent in Hev. now inversion Hev.
  - exact Hst.
  - unfold newEvent in Hev. inversion Hev; subst; clear Hev.
    cbn in Hst |- *. now rewrite Hst.
  - unfold newEvent in Hev. inversion Hev; subst; clear Hev.
    cbn in Hst |- *. now rewrite Hst.
  - rewrite Hst. apply in_or_app. right. now left.
  - rewrite Hst. unfold HandlerFunc_state. cbn. now rewrite fold_left_app.
Qed.

Lemma C2_witness :
  AutoNotify [DConfiguration (generateSampleConfig testEndpoint)] startWorld =
    (Return sampleHandler,
     configuredWorld [DConfiguration (generateSampleConfig testEndpoint)] startWorld) /\
  valid startWorld 0 = true /\
  eggsHandler 0 (world_at_Next sampleHandler 0 startWorld) =
    (Panic (VError "eggs"), world_at_Next sampleHandler 0 startWorld) /\
  exists w3 args payload,
    HandlerFunc_call eggsHandler sampleHandler 0 startWorld = (Panic (VError "eggs"), w3) /\
    outbox w3 = outbox (world_at_Next sampleHandler 0 startWorld) ++ [payload] /\
    log w3 = log (world_at_Next sampleHandler 0 startWorld)
               ++ [CallAutoNotify args; CallNotifySync (PayloadEvent payload)] /\
    EventError (PayloadEvent payload) = VError "eggs" /\
    EventHandledState (PayloadEvent payload) =
      {| SeverityReason := SeverityReasonUnhandledMiddlewareError;
         OriginalSeverity := SeverityError;
         Unhandled := true;
         Framework := "Gin" |} /\
    EventSeverity (PayloadEvent payload) = SeverityError /\
    EventUnhandled (PayloadEvent payload) = true /\
    In (DHandledState (EventHandledState (PayloadEvent payload)))
       (closure_rawData sampleHandler) /\
    HandlerFunc_state sampleHandler = EventHandledState (PayloadEvent payload).
Proof.
  split; [reflexivity|]. split; [reflexivity|]. split; [reflexivity|].
  apply (C2_one_report_with_build_time_state eggsHandler
           [DConfiguration (generateSampleConfig testEndpoint)] startWorld
           (configuredWorld [DConfiguration (generateSampleConfig testEndpoint)] startWorld)
           sampleHandler 0 startWorld (world_at_Next sampleHandler 0 startWorld)
           (VError "eggs")); reflexivity.
Defined.

(** C3: for every handler built by [AutoNotify], if the downstream
    handler returns normally, the call returns normally, the deferred
    report step sends nothing, and what the downstream handler left (the
    response with the rest of the state) is not touched; the entry part
    does not touch the response writer either. *)
Theorem C3_normal_return_no_report
    (Next : ptr -> Go unit) (rawData : list RawDatum) (w0 w0' : World)
    (h : HandlerFunc) (c : ptr) (w w2 : World) (u : unit) :
  AutoNotify rawData w0 = (Return h, w0') ->
  valid w c = true ->
  Next c (world_at_Next h c w) = (Return u, w2) ->
  exists w3 args,
    HandlerFunc_call Next h c w = (Return tt, w3) /\
    outbox w3 = outbox w2 /\
    log w3 = log w2 ++ [CallAutoNotify args] /\
    contexts w3 = contexts w2 /\
    requests w3 = requests w2 /\
    Config w3 = Config w2 /\
    sessionsStarted w3 = sessionsStarted w2 /\
    Writer <$> contexts (world_at_Next h c w) !! c = Writer <$> contexts w !! c.
Proof.
  intros _ Hv HN.
  destruct (valid_inv w c Hv) as (gc & req & Hc & Hr).
  pose proof (HandlerFunc_call_Return Next h c w w2 gc req u Hc Hr HN) as Hcall.
  eexists _, _. split; [exact Hcall|].
  cbn. repeat split; try reflexivity.
  rewrite (entered_Writer h c w gc req Hc Hr), Hc. reflexivity.
Qed.

Lemma C3_witness :
  AutoNotify [DConfiguration (generateSampleConfig testEndpoint)] startWorld =
    (Return sampleHandler,
     configuredWorld [DConfiguration (generateSampleConfig testEndpoint)] startWorld) /\
  valid startWorld 0 = true /\
  okHandler 0 (world_at_Next sampleHandler 0 startWorld) =
    (Return tt, snd (okHandler 0 (world_at_Next sampleHandler 0 startWorld))) /\
  exists w3 args,
    HandlerFunc_call okHandler sampleHandler 0 startWorld = (Return tt, w3) /\
    outbox w3 = outbox (snd (okHandler 0 (world_at_Next sampleHandler 0 startWorld))) /\
    log w3 = log (snd (okHandler 0 (world_at_Next sampleHandler 0 startWorld)))
               ++ [CallAutoNotify args] /\
    contexts w3 = contexts (snd (okHandler 0 (world_at_Next sampleHandler 0 startWorld))) /\
    requests w3 = requests (snd (okHandler 0 (world_at_Next sampleHandler 0 startWorld))) /\
    Config w3 = Config (snd (okHandler 0 (world_at_Next sampleHandler 0 startWorld))) /\
    sessionsStarted w3 =
      sessionsStarted (snd (okHandler 0 (world_at_Next sampleHandler 0 startWorld))) /\
    Writer <$> contexts (world_at_Next sampleHandler 0 startWorld) !! 0 =
      Writer <$> contexts startWorld !! 0.
Proof.
  split; [reflexivity|]. split; [reflexivity|]. split; [vm_compute; reflexivity|].
  apply (C3_normal_return_no_report okHandler
           [DConfiguration (generateSampleConfig testEndpoint)] startWorld
           (configuredWorld [DConfiguration (generateSampleConfig testEndpoint)] startWorld)
           sampleHandler 0 startWorld
           (snd (okHandler 0 (world_at_Next sampleHandler 0 startWorld))) tt);
    vm_compute; reflexivity.
Defined.

Lemma entered_contextOf (h : HandlerFunc) (c : ptr) (w : World)
    (gc : GinContext) (req : Request) :
  contexts w !! c = Some gc ->
  requests w !! GinRequest gc = Some req ->
  contextOf (world_at_Next h c w) c = Some (derivedContext w req (GinRequest gc)).
Proof.
  intros Hc Hr. unfold contextOf.
  rewrite (entered_Writer h c w gc req Hc Hr). cbn.
  rewrite (world_at_Next_valid h c w gc req Hc Hr). cbn.
  rewrite lookup_app_r by reflexivity. now rewrite Nat.sub_diag.
Qed.

Lemma derived_neq (ctx0 : Context) (session : nat) (r : ptr) :
  WithRequestData (WithSession ctx0 session) r <> ctx0.
Proof.
  intros E. apply (f_equal Context_depth) in E. cbn in E. lia.
Qed.

(** C4: for every request handled by a built handler, the session
    context is derived before the request data is attached, and the rest
    of the chain, invoked afterwards, finds on [c.Request] the context
    that went through both derivations, which is not the context the
    request came with. *)
Theorem C4_session_then_request_data
    (Next : ptr -> Go unit) (rawData : list RawDatum) (w0 w0' : World)
    (h : HandlerFunc) (c : ptr) (w : World) :
  AutoNotify rawData w0 = (Return h, w0') ->
  valid w c = true ->
  exists ctx0 r enriched mid notifier,
    contextOf w c = Some ctx0 /\
    requestOf w c = Some r /\
    enriched = WithRequestData (WithSession ctx0 (sessionsStarted w)) r /\
    log (world_at_Next h c w) =
      log w ++ [CallCopy c]
            ++ [CallStartSession ctx0]
            ++ [CallAttachRequestData (WithSession ctx0 (sessionsStarted w)) r]
            ++ mid ++ [CallNext c] /\
    contextOf (world_at_Next h c w) c = Some enriched /\
    enriched <> ctx0 /\
    HandlerFunc_call Next h c w =
      defer (Notifier_AutoNotify notifier [DContext enriched; DRequest r])
            (Next c) (world_at_Next h c w).
Proof.
  intros _ Hv.
  destruct (valid_inv w c Hv) as (gc & req & Hc & Hr).
  exists (Request_Context req), (GinRequest gc),
    (derivedContext w req (GinRequest gc)).
  exists (tl (tl (tl (entryCalls h c w req (GinRequest gc))))),
    (requestNotifier h w (GinRequest gc)).
  split. { unfold contextOf. rewrite Hc. cbn. now rewrite Hr. }
  split. { unfold requestOf. now rewrite Hc. }
  split; [reflexivity|].
  split. { rewrite (world_at_Next_valid h c w gc req Hc Hr). cbn. reflexivity. }
  split. { apply entered_contextOf; assumption. }
  split. { apply derived_neq. }
  apply HandlerFunc_call_valid; assumption.
Qed.

Lemma C4_witness :
  AutoNotify [DConfiguration (generateSampleConfig testEndpoint)] startWorld =
    (Return sampleHandler,
     configuredWorld [DConfiguration (generateSampleConfig testEndpoint)] startWorld) /\
  valid startWorld 0 = true /\
  exists ctx0 r enriched mid notifier,
    contextOf startWorld 0 = Some ctx0 /\
    requestOf startWorld 0 = Some r /\
    enriched = WithRequestData (WithSession ctx0 (sessionsStarted startWorld)) r /\
    log (world_at_Next sampleHandler 0 startWorld) =
      log startWorld ++ [CallCopy 0]
            ++ [CallStartSession ctx0]
            ++ [CallAttachRequestData (WithSession ctx0 (sessionsStarted startWorld)) r]
            ++ mid ++ [CallNext 0] /\
    contextOf (world_at_Next sampleHandler 0 startWorld) 0 = Some enriched /\
    enriched <> ctx0 /\
    HandlerFunc_call eggsHandler sampleHandler 0 startWorld =
      defer (Notifier_AutoNotify notifier [DContext enriched; DRequest r])
            (eggsHandler 0) (world_at_Next sampleHandler 0 startWorld).
Proof.
  split; [reflexivity|]. split; [reflexivity|].
  apply (C4_session_then_request_data eggsHandler
           [DConfiguration (generateSampleConfig testEndpoint)] startWorld
           (configuredWorld [DConfiguration (generateSampleConfig testEndpoint)] startWorld)
           sampleHandler 0 startWorld); reflexivity.
Defined.

Lemma orString_set (new old : string) : new <> EmptyString -> orString new old = new.
Proof. destruct new; [congruence | reflexivity]. Qed.

Lemma stringFields_update (field : Configuration -> string) (cfg other : Configuration) :
  In field stringFields ->
  field (Configuration_update cfg other) = orString (field other) (field cfg).
Proof.
  unfold stringFields. cbn.
  intros [<-|[<-|[<-|[<-|[<-|[<-|[]]]]]]]; reflexivity.
Qed.

Lemma stringFields_fold_unset (field : Configuration -> string)
    (l : list Configuration) (cfg : Configuration) :
  In field stringFields ->
  (forall cfg', In cfg' l -> field cfg' = EmptyString) ->
  field (fold_left Configuration_update l cfg) = field cfg.
Proof.
  intros Hf. revert cfg. induction l as [|c' l IH]; intros cfg Hl; [reflexivity|].
  cbn. rewrite IH by (intros cfg' Hin; apply Hl; now right).
  rewrite (stringFields_update field cfg c' Hf).
  rewrite (Hl c') by now left. reflexivity.
Qed.

Lemma configurations_app (l1 l2 : list RawDatum) :
  configurations (l1 ++ l2) = configurations l1 ++ configurations l2.
Proof. unfold configurations. apply omap_app. Qed.

Lemma configurations_other (datum : RawDatum) :
  (forall cfg, datum <> DConfiguration cfg) -> configurations [datum] = [].
Proof.
  intros Hd. destruct datum as [cfg| | | |]; try reflexivity.
  now destruct (Hd cfg).
Qed.

(** C5: [AutoNotify] applies every extra value of type [Configuration]
    through [bugsnag.Configure], in the order given, so that for a field
    set by several of them the last one wins; it has done so when it
    returns the handler, before any request is served by it; a value of
    any other type makes no difference to the configuration step and
    raises no error. *)
Theorem C5_configurations_applied_in_order (rawData : list RawDatum) (w : World) :
  exists h w',
    AutoNotify rawData w = (Return h, w') /\
    Config w' = fold_left Configuration_update (configurations rawData) (Config w) /\
    log w' = log w ++ map CallConfigure (configurations rawData) /\
    (forall l1 cfg l2 field,
        rawData = l1 ++ DConfiguration cfg :: l2 ->
        In field stringFields ->
        field cfg <> EmptyString ->
        (forall cfg', In cfg' (configurations l2) -> field cfg' = EmptyString) ->
        field (Config w') = field cfg) /\
    (forall l1 datum l2,
        rawData = l1 ++ datum :: l2 ->
        (forall cfg, datum <> DConfiguration cfg) ->
        snd (AutoNotify (l1 ++ l2) w) = w') /\
    (forall (Next : ptr -> Go unit) (c : ptr),
        (h' ← AutoNotify rawData; HandlerFunc_call Next h' c) w =
        HandlerFunc_call Next h c w').
Proof.
  eexists _, _. split; [apply AutoNotify_Return|].
  split; [reflexivity|]. split; [reflexivity|]. split; [|split].
  - intros l1 cfg l2 field -> Hf Hset Hlater. cbn.
    change (l1 ++ DConfiguration cfg :: l2)
      with (l1 ++ [DConfiguration cfg] ++ l2).
    rewrite !configurations_app, !fold_left_app. cbn.
    rewrite (stringFields_fold_unset field _ _ Hf Hlater).
    rewrite (stringFields_update field _ cfg Hf).
    now apply orString_set.
  - intros l1 datum l2 -> Hd.
    rewrite AutoNotify_Return. cbn. unfold configuredWorld.
    change (l1 ++ datum :: l2) with (l1 ++ [datum] ++ l2).
    rewrite !configurations_app, (configurations_other datum Hd).
    reflexivity.
  - intros Next c. now erewrite bind_Return by apply AutoNotify_Return.
Qed.

(** C6: for every request handled by a built handler, [c.Copy()] is
    called, and the copy exists, before the rest of the chain is invoked;
    nothing the handler does after the chain has run is a copy. *)
Theorem C6_copy_before_Next
    (Next : ptr -> Go unit) (rawData : list RawDatum) (w0 w0' : World)
    (h : HandlerFunc) (c : ptr) (w : World) :
  AutoNotify rawData w0 = (Return h, w0') ->
  valid w c = true ->
  exists mid d,
    log (world_at_Next h c w) = log w ++ [CallCopy c] ++ mid ++ [CallNext c] /\
    (forall c', ~ In (CallNext c') mid) /\
    length (contexts (world_at_Next h c w)) = S (length (contexts w)) /\
    contexts (world_at_Next h c w) !! length (contexts w) = contexts w !! c /\
    HandlerFunc_call Next h c w = defer d (Next c) (world_at_Next h c w) /\
    forall res w2,
      Next c (world_at_Next h c w) = (res, w2) ->
      exists post,
        log (snd (HandlerFunc_call Next h c w)) = log w2 ++ post /\
        forall c', ~ In (CallCopy c') post.
Proof.
  intros _ Hv.
  destruct (valid_inv w c Hv) as (gc & req & Hc & Hr).
  pose proof (lookup_lt_Some _ _ _ Hc) as Hlt.
  exists (tl (entryCalls h c w req (GinRequest gc))). eexists.
  split. { rewrite (world_at_Next_valid h c w gc req Hc Hr). cbn. reflexivity. }
  split. { intros c' Hin. cbn in Hin. intuition discriminate. }
  split. { rewrite (world_at_Next_valid h c w gc req Hc Hr). cbn.
           rewrite length_insert, length_app. cbn. lia. }
  split. { rewrite (world_at_Next_valid h c w gc req Hc Hr). cbn.
           rewrite list_lookup_insert_ne by lia.
           rewrite lookup_app_r by reflexivity.
           now rewrite Nat.sub_diag, Hc. }
  split. { apply (HandlerFunc_call_valid Next h c w gc req Hc Hr). }
  intros res w2 HN. destruct res as [u|V].
  - rewrite (HandlerFunc_call_Return Next h c w w2 gc req u Hc Hr HN). cbn.
    eexists. split; [reflexivity|].
    intros c' Hin. cbn in Hin. intuition discriminate.
  - rewrite (HandlerFunc_call_Panic Next h c w w2 gc req V Hc Hr HN).
    unfold reportedWorld, newEvent. cbn.
    eexists. split; [reflexivity|].
    intros c' Hin. cbn in Hin. intuition discriminate.
Qed.

Lemma C6_witness :
  AutoNotify [DConfiguration (generateSampleConfig testEndpoint)] startWorld =
    (Return sampleHandler,
     configuredWorld [DConfiguration (generateSampleConfig testEndpoint)] startWorld) /\
  valid startWorld 0 = true /\
  exists mid d,
    log (world_at_Next sampleHandler 0 startWorld) =
      log startWorld ++ [CallCopy 0] ++ mid ++ [CallNext 0] /\
    (forall c', ~ In (CallNext c') mid) /\
    length (contexts (world_at_Next sampleHandler 0 startWorld)) =
      S (length (contexts startWorld)) /\
    contexts (world_at_Next sampleHandler 0 startWorld) !! length (contexts startWorld) =
      contexts startWorld !! 0 /\
    HandlerFunc_call okHandler sampleHandler 0 startWorld =
      defer d (okHandler 0) (world_at_Next sampleHandler 0 startWorld) /\
    forall res w2,
      okHandler 0 (world_at_Next sampleHandler 0 startWorld) = (res, w2) ->
      exists post,
        log (snd (HandlerFunc_call okHandler sampleHandler 0 startWorld)) = log w2 ++ post /\
        forall c', ~ In (CallCopy c') post.
Proof.
  split; [reflexivity|]. split; [reflexivity|].
  apply (C6_copy_before_Next okHandler
           [DConfiguration (generateSampleConfig testEndpoint)] startWorld
           (configuredWorld [DConfiguration (generateSampleConfig testEndpoint)] startWorld)
           sampleHandler 0 startWorld); reflexivity.
Defined.

Lemma valid_configuredWorld (rawData : list RawDatum) (w : World) (c : ptr) :
  valid (configuredWorld rawData w) c = valid w c.
Proof. reflexivity. Qed.

(** C7: the middleware is built with a configuration that sets an API
    key and an endpoint and the downstream handler panics with the error
    "eggs".  The caller recovers an error whose message is "eggs", and
    exactly one event is sent, to the configured endpoint, with severity
    "error" and the reason [SeverityReasonUnhandledMiddlewareError]. *)
Theorem C7_eggs_scenario (cfg : Configuration) (w : World) (c : ptr) :
  APIKey cfg <> EmptyString ->
  Endpoints_Notify cfg <> EmptyString ->
  valid w c = true ->
  exists h w1 w3 recovered payload,
    AutoNotify [DConfiguration cfg] w = (Return h, w1) /\
    recovered_by_caller (HandlerFunc_call eggsHandler h c) w1 =
      (Return (Some recovered), w3) /\
    recovered = VError "eggs" /\
    PanicValue_message recovered = "eggs" /\
    outbox w3 = outbox w ++ [payload] /\
    PayloadEndpoint payload = Endpoints_Notify cfg /\
    PayloadAPIKey payload = APIKey cfg /\
    EventError (PayloadEvent payload) = VError "eggs" /\
    severity_String (EventSeverity (PayloadEvent payload)) = "error" /\
    SeverityReason (EventHandledState (PayloadEvent payload)) =
      SeverityReasonUnhandledMiddlewareError.
Proof.
  intros Hkey Hend Hv.
  rewrite <- (valid_configuredWorld [DConfiguration cfg]) in Hv.
  destruct (valid_inv _ c Hv) as (gc & req & Hc & Hr).
  set (h := {| closure_rawData := [DConfiguration cfg] ++ [DHandledState middlewareState] |}).
  set (w1 := configuredWorld [DConfiguration cfg] w) in *.
  assert (HN : eggsHandler c (world_at_Next h c w1) =
               (Panic (VError "eggs"), world_at_Next h c w1)) by reflexivity.
  pose proof (HandlerFunc_call_Panic eggsHandler h c w1 _ gc req _ Hc Hr HN) as Hcall.
  exists h, w1. eexists _, _, _.
  split; [apply AutoNotify_Return|].
  split. { unfold recovered_by_caller. rewrite Hcall. reflexivity. }
  split; [reflexivity|]. split; [reflexivity|].
  rewrite (world_at_Next_valid h c w1 gc req Hc Hr).
  unfold reportedWorld, newEvent. cbn.
  split; [reflexivity|].
  split. { rewrite !orString_set by assumption. reflexivity. }
  split. { rewrite !orString_set by assumption. reflexivity. }
  repeat split.
Qed.

Lemma C7_witness :
  APIKey (generateSampleConfig testEndpoint) <> EmptyString /\
  Endpoints_Notify (generateSampleConfig testEndpoint) <> EmptyString /\
  valid startWorld 0 = true /\
  exists h w1 w3 recovered payload,
    AutoNotify [DConfiguration (generateSampleConfig testEndpoint)] startWorld =
      (Return h, w1) /\
    recovered_by_caller (HandlerFunc_call eggsHandler h 0) w1 =
      (Return (Some recovered), w3) /\
    recovered = VError "eggs" /\
    PanicValue_message recovered = "eggs" /\
    outbox w3 = outbox startWorld ++ [payload] /\
    PayloadEndpoint payload = Endpoints_Notify (generateSampleConfig testEndpoint) /\
    PayloadAPIKey payload = APIKey (generateSampleConfig testEndpoint) /\
    EventError (PayloadEvent payload) = VError "eggs" /\
    severity_String (EventSeverity (PayloadEvent payload)) = "error" /\
    SeverityReason (EventHandledState (PayloadEvent payload)) =
      SeverityReasonUnhandledMiddlewareError.
Proof.
  assert (Hkey : APIKey (generateSampleConfig testEndpoint) <> EmptyString)
    by (vm_compute; discriminate).
  assert (Hend : Endpoints_Notify (generateSampleConfig testEndpoint) <> EmptyString)
    by (vm_compute; discriminate).
  split; [exact Hkey|]. split; [exact Hend|]. split; [reflexivity|].
  apply (C7_eggs_scenario (generateSampleConfig testEndpoint) startWorld 0 Hkey Hend).
  reflexivity.
Defined.

Lemma HandlerFunc_state_built (rawData : list RawDatum) :
  HandlerFunc_state {| closure_rawData := rawData ++ [DHandledState middlewareState] |}
    = middlewareState.
Proof. unfold HandlerFunc_state. cbn. now rewrite fold_left_app. Qed.

(** C8: [AutoNotify] returns a handler for every sequence of extra
    values and in every state, and two calls with the same values give
    handlers whose attribution metadata are equal field for field. *)
Theorem C8_build_total_same_metadata (rawData : list RawDatum) (w1 w2 : World) :
  exists h1 h2 w1' w2',
    AutoNotify rawData w1 = (Return h1, w1') /\
    AutoNotify rawData w2 = (Return h2, w2') /\
    (AutoNotify rawData ;; AutoNotify rawData) w1 = AutoNotify rawData w1' /\
    SeverityReason (HandlerFunc_state h1) = SeverityReason (HandlerFunc_state h2) /\
    OriginalSeverity (HandlerFunc_state h1) = OriginalSeverity (HandlerFunc_state h2) /\
    Unhandled (HandlerFunc_state h1) = Unhandled (HandlerFunc_state h2) /\
    Framework (HandlerFunc_state h1) = Framework (HandlerFunc_state h2) /\
    HandlerFunc_state h1 = middlewareState /\
    closure_rawData h1 = closure_rawData h2.
Proof.
  eexists _, _, _, _.
  split; [apply AutoNotify_Return|]. split; [apply AutoNotify_Return|].
  split. { now erewrite bind_Return by apply AutoNotify_Return. }
  rewrite !HandlerFunc_state_built. repeat split.
Qed.

(** C9 does not hold as stated: on [startWorld] the deferred report is
    given request 0, which is the inbound request itself, while the rest
    of the chain finds request 1 on the framework context.  So it is not
    the case that the downstream handlers observe the request handed to
    the report and that this request differs from the inbound one. *)
Lemma C9_counterexample :
  deferredArguments sampleHandler 0 startWorld =
    Some (WithRequestData (WithSession Background 0) 0, 0) /\
  requestOf startWorld 0 = Some 0 /\
  requestOf (world_at_Next sampleHandler 0 startWorld) 0 = Some 1 /\
  ~ (exists ctx r,
       deferredArguments sampleHandler 0 startWorld = Some (ctx, r) /\
       requestOf (world_at_Next sampleHandler 0 startWorld) 0 = Some r /\
       requestOf startWorld 0 <> Some r).
Proof.
  split; [reflexivity|]. split; [reflexivity|]. split; [reflexivity|].
  intros (ctx & r & Hd & Ho & _).
  vm_compute in Hd, Ho. congruence.
Qed.

(** C9, amended: for every request handled by a built handler, the
    arguments of the deferred report call are fixed at entry: the context
    derived at entry and the request read at entry from the copy of the
    framework context, which is the inbound request itself.  The rest of
    the chain finds on the framework context a new request, a shallow
    copy of that one carrying the derived context.  Whatever the rest of
    the chain does to the state, replacing [c.Request] included, the
    deferred call is made, once, with the pair fixed at entry. *)
Theorem C9_deferred_arguments_fixed_at_entry
    (rawData : list RawDatum) (w0 w0' : World)
    (h : HandlerFunc) (c : ptr) (w : World) :
  AutoNotify rawData w0 = (Return h, w0') ->
  valid w c = true ->
  exists ctx r req,
    deferredArguments h c w = Some (ctx, r) /\
    requestOf w c = Some r /\
    requests w !! r = Some req /\
    ctx = WithRequestData (WithSession (Request_Context req) (sessionsStarted w)) r /\
    requestOf (world_at_Next h c w) c = Some (length (requests w)) /\
    length (requests w) <> r /\
    requests (world_at_Next h c w) !! length (requests w) =
      Some {| Method := Method req; URL := URL req; reqCtx := Some ctx |} /\
    requests (world_at_Next h c w) !! r = Some req /\
    forall (Next : ptr -> Go unit) (res : Result unit) (w2 : World),
      Next c (world_at_Next h c w) = (res, w2) ->
      exists post,
        log (snd (HandlerFunc_call Next h c w)) =
          log w2 ++ CallAutoNotify [DContext ctx; DRequest r] :: post /\
        forall args, ~ In (CallAutoNotify args) post.
Proof.
  intros _ Hv.
  destruct (valid_inv w c Hv) as (gc & req & Hc & Hr).
  pose proof (lookup_lt_Some _ _ _ Hr) as Hlt.
  exists (derivedContext w req (GinRequest gc)), (GinRequest gc), req.
  split. { unfold deferredArguments.
           now rewrite (HandlerFunc_enter_Return h c w gc req Hc Hr). }
  split. { unfold requestOf. now rewrite Hc. }
  split; [exact Hr|]. split; [reflexivity|].
  split. { unfold requestOf. now rewrite (entered_Writer h c w gc req Hc Hr). }
  split; [lia|].
  rewrite (world_at_Next_valid h c w gc req Hc Hr) at 1 2.
  split. { cbn. rewrite lookup_app_r by reflexivity. now rewrite Nat.sub_diag. }
  split. { cbn. now apply lookup_app_l_Some. }
  intros Next res w2 HN. destruct res as [u|V].
  - rewrite (HandlerFunc_call_Return Next h c w w2 gc req u Hc Hr HN). cbn.
    eexists. split; [reflexivity|]. intros args [].
  - rewrite (HandlerFunc_call_Panic Next h c w w2 gc req V Hc Hr HN).
    unfold reportedWorld, newEvent. cbn.
    eexists. split; [reflexivity|].
    intros args Hin. cbn in Hin. intuition discriminate.
Qed.

Lemma C9_witness :
  AutoNotify [DConfiguration (generateSampleConfig testEndpoint)] startWorld =
    (Return sampleHandler,
     configuredWorld [DConfiguration (generateSampleConfig testEndpoint)] startWorld) /\
  valid startWorld 0 = true /\
  exists ctx r req,
    deferredArguments sampleHandler 0 startWorld = Some (ctx, r) /\
    requestOf startWorld 0 = Some r /\
    requests startWorld !! r = Some req /\
    ctx = WithRequestData
            (WithSession (Request_Context req) (sessionsStarted startWorld)) r /\
    requestOf (world_at_Next sampleHandler 0 startWorld) 0 =
      Some (length (requests startWorld)) /\
    length (requests startWorld) <> r /\
    requests (world_at_Next sampleHandler 0 startWorld) !! length (requests startWorld) =
      Some {| Method := Method req; URL := URL req; reqCtx := Some ctx |} /\
    requests (world_at_Next sampleHandler 0 startWorld) !! r = Some req /\
    forall (Next : ptr -> Go unit) (res : Result unit) (w2 : World),
      Next 0 (world_at_Next sampleHandler 0 startWorld) = (res, w2) ->
      exists post,
        log (snd (HandlerFunc_call Next sampleHandler 0 startWorld)) =
          log w2 ++ CallAutoNotify [DContext ctx; DRequest r] :: post /\
        forall args, ~ In (CallAutoNotify args) post.
Proof.
  split; [reflexivity|]. split; [reflexivity|].
  apply (C9_deferred_arguments_fixed_at_entry
           [DConfiguration (generateSampleConfig testEndpoint)] startWorld
           (configuredWorld [DConfiguration (generateSampleConfig testEndpoint)] startWorld)
           sampleHandler 0 startWorld); reflexivity.
Defined.

(** C10: the extra values recognised as [Configuration] stay in the
    sequence the handler closes over: every per-request notifier is made
    by [bugsnag.New] over the whole original sequence, then the
    attribution metadata, then the request read at entry.  A
    [Configuration] given at build is therefore both applied globally and
    bound to every per-request notifier. *)
Theorem C10_notifier_over_full_sequence
    (rawData : list RawDatum) (w0 w0' : World)
    (h : HandlerFunc) (c : ptr) (w : World) :
  AutoNotify rawData w0 = (Return h, w0') ->
  valid w c = true ->
  exists ctx r notifier w1 before after,
    HandlerFunc_enter h c w = (Return (ctx, r, notifier), w1) /\
    requestOf w c = Some r /\
    closure_rawData h = rawData ++ [DHandledState middlewareState] /\
    RawData notifier = rawData ++ [DHandledState middlewareState] ++ [DRequest r] /\
    log w1 = log w ++ before
               ++ [CallNew (rawData ++ [DHandledState middlewareState] ++ [DRequest r])]
               ++ after /\
    (forall args, ~ In (CallNew args) (before ++ after)) /\
    forall cfg, In (DConfiguration cfg) rawData ->
      In (CallConfigure cfg) (log w0') /\
      In (DConfiguration cfg) (RawData notifier).
Proof.
  intros Hb Hv.
  destruct (AutoNotify_inv _ _ _ _ Hb) as [-> ->].
  destruct (valid_inv w c Hv) as (gc & req & Hc & Hr).
  eexists _, _, _, _.
  exists (firstn 4 (entryCalls {| closure_rawData := rawData ++ [DHandledState middlewareState] |}
                      c w req (GinRequest gc))),
    [CallFlushSessionsOnRepanic false].
  split; [apply (HandlerFunc_enter_Return _ c w gc req Hc Hr)|].
  split. { unfold requestOf. now rewrite Hc. }
  split; [reflexivity|].
  split. { cbn. now rewrite <- app_assoc. }
  split. { unfold enteredWorld, entryCalls. cbn. now rewrite <- app_assoc. }
  split. { intros args Hin. cbn in Hin. intuition discriminate. }
  intros cfg Hin. split.
  - cbn. apply in_or_app. right. apply in_map.
    unfold configurations. apply list_elem_of_In.
    apply (list_elem_of_omap _ rawData cfg).
    exists (DConfiguration cfg). split; [now apply list_elem_of_In | reflexivity].
  - cbn. apply in_or_app. left. apply in_or_app. now left.
Qed.

Lemma C10_witness :
  AutoNotify [DConfiguration (generateSampleConfig testEndpoint)] startWorld =
    (Return sampleHandler,
     configuredWorld [DConfiguration (generateSampleConfig testEndpoint)] startWorld) /\
  valid startWorld 0 = true /\
  exists ctx r notifier w1 before after,
    HandlerFunc_enter sampleHandler 0 startWorld = (Return (ctx, r, notifier), w1) /\
    requestOf startWorld 0 = Some r /\
    closure_rawData sampleHandler =
      [DConfiguration (generateSampleConfig testEndpoint)]
        ++ [DHandledState middlewareState] /\
    RawData notifier =
      [DConfiguration (generateSampleConfig testEndpoint)]
        ++ [DHandledState middlewareState] ++ [DRequest r] /\
    log w1 = log startWorld ++ before
               ++ [CallNew ([DConfiguration (generateSampleConfig testEndpoint)]
                              ++ [DHandledState middlewareState] ++ [DRequest r])]
               ++ after /\
    (forall args, ~ In (CallNew args) (before ++ after)) /\
    forall cfg, In (DConfiguration cfg) [DConfiguration (generateSampleConfig testEndpoint)] ->
      In (CallConfigure cfg)
         (log (configuredWorld [DConfiguration (generateSampleConfig testEndpoint)]
                 startWorld)) /\
      In (DConfiguration cfg) (RawData notifier).
Proof.
  split; [reflexivity|]. split; [reflexivity|].
  apply (C10_notifier_over_full_sequence
           [DConfiguration (generateSampleConfig testEndpoint)] startWorld
           (configuredWorld [DConfiguration (generateSampleConfig testEndpoint)] startWorld)
           sampleHandler 0 startWorld); reflexivity.
Defined.

(** * Further properties *)

(** ** The path helpers of [bugsnag_test.go] *)

Import BugsnagTest.

Lemma strings_Split_nonempty (s : string) (sep : ascii) : strings_Split s sep <> [].
Proof.
  destruct s as [|ch rest]; cbn; [discriminate|].
  destruct (Ascii.eqb ch sep); [discriminate|].
  destruct (strings_Split rest sep); discriminate.
Qed.

Lemma strings_Split_app (p q : string) (sep : ascii) :
  strings_Split (p ++ String sep q)%string sep =
  strings_Split p sep ++ strings_Split q sep.
Proof.
  induction p as [|ch p IH].
  - change (strings_Split (String sep q) sep
            = [EmptyString] ++ strings_Split q sep).
    cbn. now rewrite Ascii.eqb_refl.
  - change (strings_Split (String ch (p ++ String sep q)%string) sep
            = strings_Split (String ch p) sep ++ strings_Split q sep).
    cbn [strings_Split]. rewrite IH.
    destruct (Ascii.eqb ch sep); [reflexivity|].
    pose proof (strings_Split_nonempty p sep) as Hne.
    destruct (strings_Split p sep) as [|piece pieces]; [contradiction|reflexivity].
Qed.

Lemma strings_Split_pieces (s : string) (sep : ascii) :
  Forall (fun piece => hasByte sep piece = false) (strings_Split s sep).
Proof.
  induction s as [|ch rest IH]; cbn.
  - repeat constructor.
  - destruct (Ascii.eqb ch sep) eqn:E.
    + constructor; [reflexivity | exact IH].
    + destruct (strings_Split rest sep) as [|piece pieces].
      * repeat constructor. cbn. now rewrite E.
      * inversion IH; subst. constructor; [|assumption].
        cbn. now rewrite E.
Qed.

Lemma Json_GetPath_JNull (branch : list string) : Json_GetPath JNull branch = JNull.
Proof. induction branch as [|key branch IH]; [reflexivity | exact IH]. Qed.

Lemma Json_GetPath_not_object (j : Json) (key : string) (branch : list string) :
  (forall m, j <> JObject m) -> Json_GetPath j (key :: branch) = JNull.
Proof.
  intros Hj. cbn. destruct j; try apply Json_GetPath_JNull.
  now destruct (Hj m).
Qed.

(** X1: a dotted path is followed piece by piece: reading [p.q] is
    reading [q] in what [p] leads to. *)
Theorem get_path_composes (j : Json) (p q : string) :
  get j (p ++ "." ++ q)%string = get (get j p) q.
Proof.
  unfold get, Json_GetPath.
  change (p ++ "." ++ q)%string with (p ++ String dot q)%string.
  now rewrite strings_Split_app, fold_left_app.
Qed.

Lemma Json_lookup_dotted (m : list (string * Json)) (key : string) :
  (forall k v, In (k, v) m -> hasByte dot k = true) ->
  hasByte dot key = false ->
  Json_lookup key m = None.
Proof.
  intros Hm Hkey. induction m as [|[k v] m IH]; [reflexivity|].
  cbn. destruct (String.eqb k key) eqn:E.
  - apply String.eqb_eq in E. subst k.
    rewrite (Hm key v) in Hkey by now left. discriminate.
  - apply IH. intros k' v' Hin. apply (Hm k' v'). now right.
Qed.

(** X2: an entry whose key contains a dot cannot be read by [get]: in an
    object with only such keys every path leads to the null document. *)
Theorem get_dotted_keys_unreachable (m : list (string * Json)) (path : string) :
  (forall k v, In (k, v) m -> hasByte dot k = true) ->
  get (JObject m) path = JNull /\ getString (JObject m) path = EmptyString.
Proof.
  intros Hm. unfold getString.
  assert (H : get (JObject m) path = JNull); [|now rewrite H].
  unfold get.
  pose proof (strings_Split_pieces path dot) as Hp.
  pose proof (strings_Split_nonempty path dot) as Hne.
  destruct (strings_Split path dot) as [|piece pieces]; [contradiction|].
  - inversion Hp; subst. cbn.
    rewrite (Json_lookup_dotted m piece Hm) by assumption.
    apply Json_GetPath_JNull.
Qed.

Lemma get_dotted_keys_unreachable_witness :
  (forall k v, In (k, v) [("request.url", JString "/ok")] -> hasByte dot k = true) /\
  get (JObject [("request.url", JString "/ok")]) "request.url" = JNull /\
  getString (JObject [("request.url", JString "/ok")]) "request.url" = EmptyString.
Proof.
  assert (H : forall k v, In (k, v) [("request.url", JString "/ok")] ->
                          hasByte dot k = true).
  { intros k v [E|[]]. inversion E. reflexivity. }
  split; [exact H|].
  apply (get_dotted_keys_unreachable [("request.url", JString "/ok")] "request.url" H).
Defined.

(** X3: once a path has left the objects (a missing key, a scalar or an
    array on the way), every longer path reads the zero values and no
    helper fails: the empty string, false, 0 and the null document at
    every index. *)
Theorem get_beyond_objects (j : Json) (p q : string) :
  (forall m, get j p <> JObject m) ->
  get j (p ++ "." ++ q)%string = JNull /\
  getString j (p ++ "." ++ q)%string = EmptyString /\
  getBool j (p ++ "." ++ q)%string = false /\
  getInt j (p ++ "." ++ q)%string = 0%Z /\
  (forall index, getIndex j (p ++ "." ++ q)%string index = Return JNull) /\
  getFirstString j (p ++ "." ++ q)%string = Return EmptyString.
Proof.
  intros Hp.
  assert (H : get j (p ++ "." ++ q)%string = JNull).
  { rewrite get_path_composes. unfold get at 1.
    pose proof (strings_Split_nonempty q dot) as Hne.
    destruct (strings_Split q dot) as [|piece pieces]; [contradiction|].
    now apply Json_GetPath_not_object. }
  unfold getString, getBool, getInt, getFirstString, getIndex.
  rewrite H. repeat split.
Qed.

Lemma get_beyond_objects_witness :
  (forall m, get (JObject [("severity", JString "error")]) "severity" <> JObject m) /\
  get (JObject [("severity", JString "error")]) ("severity" ++ "." ++ "type")%string = JNull /\
  getString (JObject [("severity", JString "error")]) ("severity" ++ "." ++ "type")%string
    = EmptyString /\
  getBool (JObject [("severity", JString "error")]) ("severity" ++ "." ++ "type")%string
    = false /\
  getInt (JObject [("severity", JString "error")]) ("severity" ++ "." ++ "type")%string
    = 0%Z /\
  (forall index,
     getIndex (JObject [("severity", JString "error")])
       ("severity" ++ "." ++ "type")%string index = Return JNull) /\
  getFirstString (JObject [("severity", JString "error")])
    ("severity" ++ "." ++ "type")%string = Return EmptyString.
Proof.
  assert (H : forall m, get (JObject [("severity", JString "error")]) "severity"
                        <> JObject m).
  { intros m. vm_compute. discriminate. }
  split; [exact H|].
  apply (get_beyond_objects (JObject [("severity", JString "error")])
           "severity" "type" H).
Defined.

(** ** The assertions of [bugsnag_test.go] *)

Lemma T_bind_Return {A B : Type} (m : T A) (k : A -> T B)
    (fs fs' : list Failure) (a : A) :
  m fs = (Return a, fs') -> (m ≫= k) fs = k a fs'.
Proof. intros H. unfold mbind, T_mbind, T_bind. now rewrite H. Qed.

Lemma getIndex_0 (j : Json) (path : string) :
  getIndex j path 0 = Return (firstAt j path).
Proof.
  unfold firstAt, getIndex, Json_GetIndex.
  destruct (get j path) as [| | | |a|]; try reflexivity.
  destruct a as [|v a]; reflexivity.
Qed.

Lemma T_for_range_checkCase (cases : list testCase) (fs : list Failure) :
  T_for_range cases checkCase fs = (Return tt, fs ++ flat_map caseFailures cases).
Proof.
  revert fs. induction cases as [|tc cases IH]; intros fs; cbn.
  - now rewrite app_nil_r.
  - unfold mbind, T_mbind, T_bind, checkCase, caseFailures.
    destruct (decide (got tc = exp tc)); cbn.
    + apply IH.
    + unfold t_Errorf. rewrite IH. now rewrite <- app_assoc.
Qed.

Lemma caseFailures_none (cases : list testCase) :
  flat_map caseFailures cases = [] <-> Forall (fun tc => got tc = exp tc) cases.
Proof.
  induction cases as [|tc cases IH]; cbn.
  - split; [constructor | reflexivity].
  - rewrite Forall_cons. unfold caseFailures at 1.
    destruct (decide (got tc = exp tc)); cbn.
    + rewrite IH. tauto.
    + split; [discriminate | tauto].
Qed.

Lemma caseFailures_length (cases : list testCase) :
  length (flat_map caseFailures cases) <= length cases.
Proof.
  induction cases as [|tc cases IH]; cbn; [lia|].
  rewrite length_app. unfold caseFailures at 1.
  destruct (decide (got tc = exp tc)); cbn; lia.
Qed.

Lemma app_same_nil {A : Type} (l added : list A) : l ++ added = l <-> added = [].
Proof.
  split; [|intros ->; apply app_nil_r].
  intros H. apply (f_equal length) in H. rewrite length_app in H.
  destruct added; [reflexivity | cbn in H; lia].
Qed.

Lemma assertPayload_readable (VERSION : string) (report : Json) (e : eventJSON)
    (fs : list Failure) (x : exceptionJSON) (xs : list exceptionJSON)
    (app : appJSON) (user : User) (device : deviceJSON)
    (reason : severityReasonJSON) :
  exp_Exceptions e = x :: xs ->
  exp_App e = Some app ->
  exp_User e = Some user ->
  exp_Device e = Some device ->
  exp_SeverityReason e = Some reason ->
  assertPayload VERSION report e fs =
    (Return tt,
     fs ++ flat_map caseFailures
             (payloadCases VERSION report (firstAt report "events")
                (firstAt (firstAt report "events") "exceptions")
                x app user device reason e)).
Proof.
  intros Hx Ha Hu Hd Hr. unfold assertPayload.
  rewrite Hx, Ha, Hu, Hd, Hr.
  unfold derefField, lift, mbind, T_mbind, T_bind, mret, T_mret, T_ret.
  rewrite getIndex_0. cbn beta iota. rewrite getIndex_0. cbn beta iota.
  apply T_for_range_checkCase.
Qed.

Lemma readable_inv (e : eventJSON) :
  readable e = true ->
  exists x xs app user device reason,
    exp_Exceptions e = x :: xs /\ exp_App e = Some app /\ exp_User e = Some user /\
    exp_Device e = Some device /\ exp_SeverityReason e = Some reason.
Proof.
  unfold readable. intros H.
  destruct (exp_Exceptions e) as [|x xs]; [discriminate|].
  destruct (exp_App e) as [app|]; [|discriminate].
  destruct (exp_User e) as [user|]; [|discriminate].
  destruct (exp_Device e) as [device|]; [|discriminate].
  destruct (exp_SeverityReason e) as [reason|]; [|discriminate].
  exists x, xs, app, user, device, reason. repeat split.
Qed.

(** X4: with an expectation it can read, [assertPayload] returns, keeps
    the failures recorded before and adds at most one per line of its
    table; it adds none exactly when the nineteen values it reads from
    the report, its first event and that event's first exception are the
    expected ones. *)
Theorem assertPayload_passes_iff (VERSION : string) (report : Json) (e : eventJSON)
    (fs : list Failure) :
  readable e = true ->
  exists added,
    assertPayload VERSION report e fs = (Return tt, fs ++ added) /\
    length added <= 19 /\
    (added = [] <->
     let event := firstAt report "events" in
     let exception := firstAt event "exceptions" in
     getString report "apiKey" = testAPIKey /\
     getString report "notifier.name" = "Bugsnag Go" /\
     getString report "notifier.version" = VERSION /\
     getString report "notifier.url" = "https://github.com/bugsnag/bugsnag-go" /\
     Some (getString exception "message") = exception_Message <$> head (exp_Exceptions e) /\
     Some (getString exception "errorClass")
       = exception_ErrorClass <$> head (exp_Exceptions e) /\
     getBool event "unhandled" = exp_Unhandled e /\
     Some (getString event "app.version") = app_Version <$> exp_App e /\
     Some (getString event "app.releaseStage") = app_ReleaseStage <$> exp_App e /\
     Some (getString event "app.type") = app_Type <$> exp_App e /\
     Some (getString event "user.id") = user_Id <$> exp_User e /\
     Some (getString event "user.name") = user_Name <$> exp_User e /\
     Some (getString event "user.email") = user_Email <$> exp_User e /\
     getString event "context" = exp_Context e /\
     Some (getString event "device.hostname") = device_Hostname <$> exp_Device e /\
     getString event "groupingHash" = exp_GroupingHash e /\
     getString event "payloadVersion" = "4" /\
     getString event "severity" = exp_Severity e /\
     Some (getString event "severityReason.type")
       = severityReason_Type <$> exp_SeverityReason e).
Proof.
  intros Hr.
  destruct (readable_inv e Hr) as (x & xs & app & user & device & reason
                                     & Hx & Ha & Hu & Hd & Hs).
  eexists. split; [apply (assertPayload_readable VERSION report e fs x xs app user
                            device reason Hx Ha Hu Hd Hs)|].
  split; [apply (caseFailures_length (payloadCases _ _ _ _ _ _ _ _ _ _))|].
  rewrite caseFailures_none. unfold payloadCases.
  rewrite !Forall_cons, Forall_nil. cbn [got exp].
  rewrite Hx, Ha, Hu, Hd, Hs. cbn.
  split; intros H;
    repeat match goal with
           | H : _ /\ _ |- _ => destruct H
           end;
    repeat split; congruence.
Qed.

Lemma assertPayload_passes_iff_witness :
  readable (expTestAutoNotify "handledPanic") = true /\
  exists added,
    assertPayload "1.5.0" (JObject []) (expTestAutoNotify "handledPanic") []
      = (Return tt, [] ++ added) /\
    length added <= 19 /\
    (added = [] <->
     let event := firstAt (JObject []) "events" in
     let exception := firstAt event "exceptions" in
     getString (JObject []) "apiKey" = testAPIKey /\
     getString (JObject []) "notifier.name" = "Bugsnag Go" /\
     getString (JObject []) "notifier.version" = "1.5.0" /\
     getString (JObject []) "notifier.url" = "https://github.com/bugsnag/bugsnag-go" /\
     Some (getString exception "message")
       = exception_Message <$> head (exp_Exceptions (expTestAutoNotify "handledPanic")) /\
     Some (getString exception "errorClass")
       = exception_ErrorClass <$> head (exp_Exceptions (expTestAutoNotify "handledPanic")) /\
     getBool event "unhandled" = exp_Unhandled (expTestAutoNotify "handledPanic") /\
     Some (getString event "app.version")
       = app_Version <$> exp_App (expTestAutoNotify "handledPanic") /\
     Some (getString event "app.releaseStage")
       = app_ReleaseStage <$> exp_App (expTestAutoNotify "handledPanic") /\
     Some (getString event "app.type")
       = app_Type <$> exp_App (expTestAutoNotify "handledPanic") /\
     Some (getString event "user.id")
       = user_Id <$> exp_User (expTestAutoNotify "handledPanic") /\
     Some (getString event "user.name")
       = user_Name <$> exp_User (expTestAutoNotify "handledPanic") /\
     Some (getString event "user.email")
       = user_Email <$> exp_User (expTestAutoNotify "handledPanic") /\
     getString event "context" = exp_Context (expTestAutoNotify "handledPanic") /\
     Some (getString event "device.hostname")
       = device_Hostname <$> exp_Device (expTestAutoNotify "handledPanic") /\
     getString event "groupingHash" = exp_GroupingHash (expTestAutoNotify "handledPanic") /\
     getString event "payloadVersion" = "4" /\
     getString event "severity" = exp_Severity (expTestAutoNotify "handledPanic") /\
     Some (getString event "severityReason.type")
       = severityReason_Type <$> exp_SeverityReason (expTestAutoNotify "handledPanic")).
Proof.
  split; [reflexivity|].
  apply (assertPayload_passes_iff "1.5.0" (JObject [])
           (expTestAutoNotify "handledPanic") []).
  reflexivity.
Defined.

(** X5: [assertPayload] looks at the first event of the report and at
    the first exception of that event only: events and exceptions after
    the first make no difference to its outcome. *)
Theorem assertPayload_first_event_only (VERSION : string)
    (top eventFields : list (string * Json)) (exception : Json)
    (moreExceptions moreEvents : list Json) (e : eventJSON) (fs : list Failure) :
  assertPayload VERSION
    (JObject (("events",
               JArray (JObject (("exceptions", JArray (exception :: moreExceptions))
                                  :: eventFields) :: moreEvents)) :: top)) e fs
  = assertPayload VERSION
      (JObject (("events",
                 JArray [JObject (("exceptions", JArray [exception])
                                    :: eventFields)]) :: top)) e fs.
Proof.
  unfold assertPayload, payloadCases, getIndex, getString, getBool, get,
    Json_GetPath, Json_GetIndex, lift,
    mbind, T_mbind, T_bind, mret, T_mret, T_ret.
  destruct (exp_Exceptions e); [reflexivity|].
  cbn. reflexivity.
Qed.

(** X6: with an expectation it cannot read, [assertPayload] panics
    before it has compared anything: on an empty [Exceptions] slice with
    an index out of range, on a nil [App], [User], [Device] or
    [SeverityReason] with a nil dereference; no failure is recorded. *)
Theorem assertPayload_unreadable (VERSION : string) (report : Json) (e : eventJSON)
    (fs : list Failure) :
  readable e = false ->
  assertPayload VERSION report e fs =
    (Panic (match exp_Exceptions e with
            | [] => indexOutOfRange
            | _ :: _ => nilDereference
            end), fs).
Proof.
  unfold readable, assertPayload. intros H.
  destruct (exp_Exceptions e) as [|x xs]; [reflexivity|].
  unfold lift, mbind, T_mbind, T_bind, mret, T_mret, T_ret.
  rewrite getIndex_0. cbn beta iota. rewrite getIndex_0. cbn beta iota.
  destruct (exp_App e); [|reflexivity].
  destruct (exp_User e); [|reflexivity].
  destruct (exp_Device e); [|reflexivity].
  destruct (exp_SeverityReason e); [discriminate|reflexivity].
Qed.

Lemma assertPayload_unreadable_witness :
  readable {| exp_App := None; exp_Context := EmptyString; exp_Device := None;
              exp_GroupingHash := EmptyString; exp_Session := None;
              exp_Severity := "error"; exp_SeverityReason := None;
              exp_Unhandled := true; exp_User := None;
              exp_Exceptions := [ {| exception_ErrorClass := "*errors.errorString";
                                     exception_Message := "eggs" |} ] |} = false /\
  assertPayload "1.5.0" (JObject [])
    {| exp_App := None; exp_Context := EmptyString; exp_Device := None;
       exp_GroupingHash := EmptyString; exp_Session := None;
       exp_Severity := "error"; exp_SeverityReason := None;
       exp_Unhandled := true; exp_User := None;
       exp_Exceptions := [ {| exception_ErrorClass := "*errors.errorString";
                              exception_Message := "eggs" |} ] |} []
  = (Panic nilDereference, []).
Proof.
  split; [reflexivity|].
  apply (assertPayload_unreadable "1.5.0" (JObject [])
           {| exp_App := None; exp_Context := EmptyString; exp_Device := None;
              exp_GroupingHash := EmptyString; exp_Session := None;
              exp_Severity := "error"; exp_SeverityReason := None;
              exp_Unhandled := true; exp_User := None;
              exp_Exceptions := [ {| exception_ErrorClass := "*errors.errorString";
                                     exception_Message := "eggs" |} ] |} []).
  reflexivity.
Defined.

(** X7: [assertValidSession] returns and keeps the failures recorded
    before; it adds none exactly when the session id is 36 bytes long,
    the start time parses, and the event counts are one unhandled and no
    handled event for an unhandled report, one handled and no unhandled
    event otherwise. *)
Theorem assertValidSession_passes_iff (parse : string -> option string)
    (event : Json) (unhandled : bool) (fs : list Failure) :
  exists added,
    assertValidSession parse event unhandled fs = (Return tt, fs ++ added) /\
    length added <= 4 /\
    (added = [] <->
     String.length (getString event "session.id") = 36 /\
     parse (getString event "session.startedAt") = None /\
     getInt event "session.events.unhandled" = (if unhandled then 1 else 0)%Z /\
     getInt event "session.events.handled" = (if unhandled then 0 else 1)%Z).
Proof.
  unfold assertValidSession, t_Errorf, t_Error,
    mbind, T_mbind, T_bind, mret, T_mret, T_ret.
  destruct unhandled;
    destruct (decide (String.length (getString event "session.id") = 36));
    destruct (parse (getString event "session.startedAt"));
    destruct (decide (getInt event "session.events.unhandled" = _));
    destruct (decide (getInt event "session.events.handled" = _));
    cbn; rewrite <- ?app_assoc; cbn;
    (eexists; split; [try reflexivity; now rewrite app_nil_r|]);
    (split; [cbn; lia|]);
    (split; [try discriminate; intros _; repeat split; assumption
            | intros (H1 & H2 & H3 & H4); try reflexivity;
              try contradiction; try discriminate]).
Qed.

(** X8: [checkFrame] returns and keeps the failures recorded before; it
    adds none exactly when file, method and the in-project flag are the
    expected ones and the line number is not 0.  The expected line number
    decides nothing. *)
Theorem checkFrame_passes_iff (frame : Json) (e : stackFrame) (fs : list Failure) :
  exists added,
    checkFrame frame e fs = (Return tt, fs ++ added) /\
    length added <= 4 /\
    (added = [] <->
     getString frame "file" = frame_File e /\
     getString frame "method" = frame_Method e /\
     getInt frame "lineNumber" <> 0%Z /\
     getBool frame "inProject" = frame_InProject e).
Proof.
  unfold checkFrame, t_Errorf, mbind, T_mbind, T_bind, mret, T_mret, T_ret.
  destruct (decide (getString frame "file" = frame_File e));
    destruct (decide (getString frame "method" = frame_Method e));
    destruct (decide (getInt frame "lineNumber" = 0%Z));
    destruct (decide (getBool frame "inProject" = frame_InProject e));
    cbn; rewrite <- ?app_assoc; cbn;
    (eexists; split; [try reflexivity; now rewrite app_nil_r|]);
    (split; [cbn; lia|]);
    (split; [try discriminate; intros _; repeat split; assumption
            | intros (H1 & H2 & H3 & H4); try reflexivity;
              try contradiction; try discriminate]).
Qed.

(** ** Further properties of [gin/bugsnaggin.go] *)

(** X9: on a framework context that is nil, or whose request is nil, the
    closure panics with a nil dereference at its first statements, before
    the [defer] statement: the rest of the chain is not run, no session
    is started and nothing is reported. *)
Theorem HandlerFunc_call_invalid (Next : ptr -> Go unit) (h : HandlerFunc)
    (c : ptr) (w : World) :
  valid w c = false ->
  exists w',
    HandlerFunc_call Next h c w = (Panic nilDereference, w') /\
    log w' = log w ++ [CallCopy c] /\
    outbox w' = outbox w /\
    sessionsStarted w' = sessionsStarted w /\
    requests w' = requests w /\
    Config w' = Config w.
Proof.
  unfold valid. intros Hv.
  unfold HandlerFunc_call, HandlerFunc_enter, gin_Context_Copy, gin_Context_Request,
    http_Request_Context, record, deref, gets, modify,
    mbind, Go_bind, bind, mret, Go_ret, ret.
  cbn. destruct (contexts w !! c) as [gc|] eqn:Hc; cbn.
  - rewrite lookup_app_r by reflexivity. rewrite Nat.sub_diag. cbn.
    destruct (requests w !! GinRequest gc); [discriminate|]. cbn.
    eexists. split; [reflexivity|]. repeat split.
  - eexists. split; [reflexivity|]. repeat split.
Qed.

Lemma HandlerFunc_call_invalid_witness :
  valid startWorld 7 = false /\
  exists w',
    HandlerFunc_call okHandler sampleHandler 7 startWorld = (Panic nilDereference, w') /\
    log w' = log startWorld ++ [CallCopy 7] /\
    outbox w' = outbox startWorld /\
    sessionsStarted w' = sessionsStarted startWorld /\
    requests w' = requests startWorld /\
    Config w' = Config startWorld.
Proof.
  split; [reflexivity|].
  apply (HandlerFunc_call_invalid okHandler sampleHandler 7 startWorld).
  reflexivity.
Defined.

(** X10: when the rest of the chain panics, the deferred report adds one
    payload and two calls to what the chain left and changes nothing
    else: the heap of requests and contexts (the response with it), the
    global configuration and the session count are those the chain left,
    and sessions are not flushed. *)
Theorem HandlerFunc_call_Panic_frame (Next : ptr -> Go unit) (h : HandlerFunc)
    (c : ptr) (w w2 : World) (V : PanicValue) :
  valid w c = true ->
  Next c (world_at_Next h c w) = (Panic V, w2) ->
  exists w3 payload args,
    HandlerFunc_call Next h c w = (Panic V, w3) /\
    w3 = set_outbox (outbox w2 ++ [payload])
           (set_log (log w2 ++ [CallAutoNotify args;
                                CallNotifySync (PayloadEvent payload)]) w2) /\
    contexts w3 = contexts w2 /\
    requests w3 = requests w2 /\
    Config w3 = Config w2 /\
    sessionsStarted w3 = sessionsStarted w2 /\
    PayloadEndpoint payload =
      Endpoints_Notify (fold_left pickConfiguration (closure_rawData h) (Config w)).
Proof.
  intros Hv HN.
  destruct (valid_inv w c Hv) as (gc & req & Hc & Hr).
  rewrite (HandlerFunc_call_Panic Next h c w w2 gc req V Hc Hr HN).
  unfold reportedWorld.
  destruct (newEvent _ V _) as [event config] eqn:Hev.
  exists (set_outbox
            (outbox w2 ++ [ {| PayloadEndpoint := Endpoints_Notify config;
                               PayloadAPIKey := APIKey config;
                               PayloadEvent := event |} ])
            (set_log (log w2 ++ [CallAutoNotify
                                   [DContext (derivedContext w req (GinRequest gc));
                                    DRequest (GinRequest gc)];
                                 CallNotifySync event]) w2)),
    {| PayloadEndpoint := Endpoints_Notify config;
       PayloadAPIKey := APIKey config;
       PayloadEvent := event |},
    [DContext (derivedContext w req (GinRequest gc)); DRequest (GinRequest gc)].
  repeat split.
  unfold newEvent in Hev. inversion Hev; subst. cbn.
  rewrite !fold_left_app. reflexivity.
Qed.

Lemma HandlerFunc_call_Panic_frame_witness :
  valid startWorld 0 = true /\
  eggsHandler 0 (world_at_Next sampleHandler 0 startWorld) =
    (Panic (VError "eggs"), world_at_Next sampleHandler 0 startWorld) /\
  exists w3 payload args,
    HandlerFunc_call eggsHandler sampleHandler 0 startWorld = (Panic (VError "eggs"), w3) /\
    w3 = set_outbox (outbox (world_at_Next sampleHandler 0 startWorld) ++ [payload])
           (set_log (log (world_at_Next sampleHandler 0 startWorld)
                       ++ [CallAutoNotify args; CallNotifySync (PayloadEvent payload)])
                    (world_at_Next sampleHandler 0 startWorld)) /\
    contexts w3 = contexts (world_at_Next sampleHandler 0 startWorld) /\
    requests w3 = requests (world_at_Next sampleHandler 0 startWorld) /\
    Config w3 = Config (world_at_Next sampleHandler 0 startWorld) /\
    sessionsStarted w3 = sessionsStarted (world_at_Next sampleHandler 0 startWorld) /\
    PayloadEndpoint payload =
      Endpoints_Notify (fold_left pickConfiguration (closure_rawData sampleHandler)
                          (Config startWorld)).
Proof.
  split; [reflexivity|]. split; [reflexivity|].
  apply (HandlerFunc_call_Panic_frame eggsHandler sampleHandler 0 startWorld
           (world_at_Next sampleHandler 0 startWorld) (VError "eggs"));
    reflexivity.
Defined.

Lemma valid_world_at_Next (h : HandlerFunc) (c : ptr) (w : World) :
  valid w c = true -> valid (world_at_Next h c w) c = true.
Proof.
  intros Hv. destruct (valid_inv w c Hv) as (gc & req & Hc & Hr).
  unfold valid. rewrite (entered_Writer h c w gc req Hc Hr). cbn.
  rewrite (world_at_Next_valid h c w gc req Hc Hr). cbn.
  rewrite lookup_app_r by reflexivity. now rewrite Nat.sub_diag.
Qed.

(** X11: with the middleware installed twice in a chain, a panic of the
    handlers after them is reported twice, first by the inner and then by
    the outer one, and still reaches the caller with its value. *)
Theorem HandlerFunc_call_nested (Next : ptr -> Go unit) (outer inner : HandlerFunc)
    (c : ptr) (w w2 : World) (V : PanicValue) :
  valid w c = true ->
  Next c (world_at_Next inner c (world_at_Next outer c w)) = (Panic V, w2) ->
  exists w3 first second,
    HandlerFunc_call (HandlerFunc_call Next inner) outer c w = (Panic V, w3) /\
    outbox w3 = outbox w2 ++ [first; second] /\
    EventError (PayloadEvent first) = V /\
    EventError (PayloadEvent second) = V /\
    (exists rest, EventRawData (PayloadEvent first) = closure_rawData inner ++ rest) /\
    (exists rest, EventRawData (PayloadEvent second) = closure_rawData outer ++ rest).
Proof.
  intros Hv HN.
  pose proof (valid_world_at_Next outer c w Hv) as Hv1.
  destruct (valid_inv w c Hv) as (gc & req & Hc & Hr).
  destruct (valid_inv _ c Hv1) as (gc1 & req1 & Hc1 & Hr1).
  pose proof (HandlerFunc_call_Panic Next inner c _ w2 gc1 req1 V Hc1 Hr1 HN) as Hin.
  rewrite (HandlerFunc_call_Panic (HandlerFunc_call Next inner) outer c w _ gc req V
             Hc Hr Hin).
  unfold reportedWorld, newEvent. cbn.
  eexists _, _, _. split; [reflexivity|]. cbn.
  split; [now rewrite <- app_assoc|].
  split; [reflexivity|]. split; [reflexivity|].
  split; eexists; rewrite <- !app_assoc; reflexivity.
Qed.

Lemma HandlerFunc_call_nested_witness :
  valid startWorld 0 = true /\
  eggsHandler 0 (world_at_Next sampleHandler 0 (world_at_Next sampleHandler 0 startWorld)) =
    (Panic (VError "eggs"),
     world_at_Next sampleHandler 0 (world_at_Next sampleHandler 0 startWorld)) /\
  exists w3 first second,
    HandlerFunc_call (HandlerFunc_call eggsHandler sampleHandler) sampleHandler 0 startWorld
      = (Panic (VError "eggs"), w3) /\
    outbox w3 =
      outbox (world_at_Next sampleHandler 0 (world_at_Next sampleHandler 0 startWorld))
        ++ [first; second] /\
    EventError (PayloadEvent first) = VError "eggs" /\
    EventError (PayloadEvent second) = VError "eggs" /\
    (exists rest,
       EventRawData (PayloadEvent first) = closure_rawData sampleHandler ++ rest) /\
    (exists rest,
       EventRawData (PayloadEvent second) = closure_rawData sampleHandler ++ rest).
Proof.
  split; [reflexivity|]. split; [vm_compute; reflexivity|].
  apply (HandlerFunc_call_nested eggsHandler sampleHandler sampleHandler 0 startWorld
           (world_at_Next sampleHandler 0 (world_at_Next sampleHandler 0 startWorld))
           (VError "eggs")); [reflexivity | vm_compute; reflexivity].
Defined.

(** X12: [AutoNotify] called with no [Configuration] among its values,
    in particular with no value at all, changes nothing: it makes no
    call and returns the handler that closes over the values and the
    attribution metadata. *)
Theorem AutoNotify_without_Configuration (rawData : list RawDatum) (w : World) :
  (forall cfg, ~ In (DConfiguration cfg) rawData) ->
  AutoNotify rawData w =
    (Return {| closure_rawData := rawData ++ [DHandledState middlewareState] |}, w).
Proof.
  intros Hno. rewrite AutoNotify_Return. f_equal.
  assert (Hc : configurations rawData = []).
  { induction rawData as [|datum rawData IH]; [reflexivity|].
    change (datum :: rawData) with ([datum] ++ rawData).
    rewrite configurations_app, IH.
    - rewrite configurations_other; [reflexivity|].
      intros cfg ->. apply (Hno cfg). now left.
    - intros cfg Hin. apply (Hno cfg). now right. }
  unfold configuredWorld. rewrite Hc. destruct w. cbn. now rewrite app_nil_r.
Qed.

Lemma AutoNotify_without_Configuration_witness :
  (forall cfg, ~ In (DConfiguration cfg) [DOther "bugsnag.User"]) /\
  AutoNotify [DOther "bugsnag.User"] startWorld =
    (Return {| closure_rawData := [DOther "bugsnag.User"]
                                    ++ [DHandledState middlewareState] |}, startWorld).
Proof.
  assert (H : forall cfg, ~ In (DConfiguration cfg) [DOther "bugsnag.User"]).
  { intros cfg [E|[]]. discriminate E. }
  split; [exact H|].
  apply (AutoNotify_without_Configuration [DOther "bugsnag.User"] startWorld H).
Defined.
